(** * @hsuite/users: the account store and its delegating service

    A shallow embedding of [models/user.model.service.ts]
    ([UserModelService]) and [users.service.ts] ([UsersService]), over a
    model of the three collaborators they call: the mongoose model of the
    [auth_users] collection, [bcrypt] and the event emitter.

    Every method of the source is
    [new Promise(async (resolve, reject) => { try { ... } catch (error) { reject(error) } })];
    it is embedded as a computation of type [Async A], a function from the
    state of the world to a settled promise and the next state. *)

From Stdlib Require Import String List ZArith Bool Arith Lia.
Import ListNotations.
Open Scope string_scope.
Open Scope list_scope.

(** ** Data: entities/user.entity.ts *)

(** A MongoDB [_id]; the store hands out fresh ones. *)
Definition ObjectId := nat.

(** [IAuth.ITwoFactor.IAuth]: every field of the config object is optional
    (the examples of the source pass [{enabled, secret}],
    [{enabled, secret, backupCodes}] and [{enabled, secret, verified}]). *)
Module TwoFactor.
Record t := mk {
  enabled : option bool;
  secret : option string;
  verified : option bool;
  backupCodes : option (list string)
}.
End TwoFactor.

(** [User extends UserNamespace.Safe], with the [password] property the
    entity adds. [banned] is tri-state: [None] is null or absent. The
    bookkeeping mongoose keeps on its own ([__v], the [createdAt] and
    [updatedAt] dates of the schema option [timestamps]) is nothing the
    methods read or assign, and is left out of the record. *)
Record User := mkUser {
  _id : ObjectId;
  email : string;
  username : string;
  password : string;
  role : string;
  confirmed : bool;
  banned : option bool;
  twoFactorAuth : option TwoFactor.t;
  created_at : Z;
  updated_at : Z
}.

(** [IAuth.ICredentials.IWeb2.IDto.ISignup] *)
Module ISignup.
Record t := mk { email : string; username : string; password : string }.
End ISignup.

(** [IAuth.ICredentials.IWeb2.IDto.ILogin]: a property is [None] when it is
    null or left out, as in the call of [updatePassword]. *)
Module ILogin.
Record t := mk {
  email : option string;
  username : option string;
  password : option string
}.
End ILogin.

(** A signup object handed to a function that reads it as a login:
    the same three properties, all present. *)
Definition as_login (user : ISignup.t) : ILogin.t :=
  ILogin.mk (Some (ISignup.email user)) (Some (ISignup.username user))
            (Some (ISignup.password user)).

(** JavaScript truthiness of an optional string: null, undefined and the
    empty string are falsy. *)
Definition truthy (s : option string) : bool :=
  match s with
  | Some v => negb (v =? "")
  | None => false
  end.

(** The string a truthy optional property holds. *)
Definition text (s : option string) : string :=
  match s with
  | Some v => v
  | None => ""
  end.

(** ** Values, failures and the world *)

(** What a variable named [userDocument] can hold: a live mongoose
    document, the plain object [toJSON()] makes of one, [null] or
    [undefined]. *)
Inductive Reply :=
| Document (u : User)
| Json (u : User)
| Null
| Undefined.

(** What a promise is rejected with. *)
Inductive Thrown :=
| TypeError (message : string)
| PlainError (message : string)
| ValidationError (message : string)
| DocumentNotFoundError.

Inductive Settled (A : Type) :=
| Resolved (a : A)
| Rejected (error : Thrown).
Arguments Resolved {A} a.
Arguments Rejected {A} error.

(** What the outside observes, in order: writes to the collection and
    events handed to the emitter. *)
Inductive Effect :=
| Saved (u : User)
| Removed (u : User)
| Emitted (event : string) (payload : Reply).

Record World := mkWorld {
  collection : list User;      (* auth_users, in natural order *)
  next_id : ObjectId;          (* the next fresh _id *)
  clock : Z;                   (* unix seconds *)
  entropy : nat -> string;     (* the salts bcrypt will draw *)
  draws : nat;                 (* how many it has drawn *)
  trace : list Effect
}.

Definition with_collection (c : list User) (w : World) : World :=
  mkWorld c (next_id w) (clock w) (entropy w) (draws w) (trace w).

Definition record_effect (e : Effect) (w : World) : World :=
  mkWorld (collection w) (next_id w) (clock w) (entropy w) (draws w)
          (trace w ++ [e]).

Definition Async (A : Type) := World -> Settled A * World.

Definition resolve {A} (a : A) : Async A := fun w => (Resolved a, w).

Definition reject {A} (error : Thrown) : Async A := fun w => (Rejected error, w).

Definition await {A B} (m : Async A) (k : A -> Async B) : Async B :=
  fun w =>
    match m w with
    | (Resolved a, w') => k a w'
    | (Rejected error, w') => (Rejected error, w')
    end.

Notation "x <- m ;; k" := (await m (fun x => k))
  (at level 61, m at next level, right associativity).
Notation "m ;; k" := (await m (fun _ => k))
  (at level 61, right associativity).

(** [new Promise(async (resolve, reject) => { try { body } catch (error) { reject(error) } })] *)
Definition new_Promise {A} (body : Async A) : Async A :=
  fun w =>
    match body w with
    | (Resolved a, w') => (Resolved a, w')
    | (Rejected error, w') => (Rejected error, w')
    end.

(** ** Collaborators *)

(** [bcrypt]: the digest as a function of the salt it drew, the cost and
    the data. *)
Class Bcrypt := { bcrypt_digest : string -> nat -> string -> string }.

(** [bcrypt.hash(data, saltOrRounds)] draws a salt and digests. *)
Definition bcrypt_hash `{Bcrypt} (data : string) (saltOrRounds : nat) : Async string :=
  fun w =>
    (Resolved (bcrypt_digest (entropy w (draws w)) saltOrRounds data),
     mkWorld (collection w) (next_id w) (clock w) (entropy w) (S (draws w)) (trace w)).

(** [moment().unix()] *)
Definition moment_unix : Async Z := fun w => (Resolved (clock w), w).

(** [this.eventEmitter.emit(event, payload)] *)
Definition emit (event : string) (payload : Reply) : Async unit :=
  fun w => (Resolved tt, record_effect (Emitted event payload) w).

(** What [validateBeforeSave] and the indexes of the collection let in when
    a new document is inserted. The schema of [UserNamespace.Safe] is in the
    package @hsuite/users-types; the development holds for any. *)
Class Schema := { schema_accepts : list User -> User -> bool }.

(** A MongoDB filter object: the conjunction of its keys. *)
Inductive Condition :=
| banned_in (values : list (option bool))
| username_is (value : string)
| email_is (value : string)
| role_is (value : string)
| confirmed_is (value : bool).

Definition Filters := list Condition.

Definition same_flag (a b : option bool) : bool :=
  match a, b with
  | Some x, Some y => Bool.eqb x y
  | None, None => true
  | _, _ => false
  end.

Definition holds (c : Condition) (u : User) : bool :=
  match c with
  | banned_in values => existsb (same_flag (banned u)) values
  | username_is value => username u =? value
  | email_is value => email u =? value
  | role_is value => role u =? value
  | confirmed_is value => Bool.eqb (confirmed u) value
  end.

Definition matches (filters : Filters) (u : User) : bool :=
  forallb (fun c => holds c u) filters.

Definition has_id (id : ObjectId) (u : User) : bool := Nat.eqb (_id u) id.

Definition lookup (id : ObjectId) (c : list User) : option User :=
  List.find (has_id id) c.

Definition found (r : option User) : Reply :=
  match r with
  | Some u => Document u
  | None => Null
  end.

(** *** The mongoose model [this.userModel] *)

Module userModel.

(** [this.userModel.findOne(filters).exec()]: the first document of the
    collection that satisfies the filter, or null. *)
Definition findOne (filters : Filters) : Async Reply :=
  fun w => (Resolved (found (List.find (matches filters) (collection w))), w).

(** [this.userModel.findById(id).exec()] *)
Definition findById (id : ObjectId) : Async Reply :=
  fun w => (Resolved (found (lookup id (collection w))), w).

(** [this.userModel.find().exec()] *)
Definition find : Async (list Reply) :=
  fun w => (Resolved (map Document (collection w)), w).

(** Modelled from the spec: the defaults that the schema of
    [UserNamespace.Safe] (package @hsuite/users-types, not in src) gives to
    the properties the constructor call leaves out. The spec has a new
    record with [confirmed=false], no two-factor config and no ban, and both
    timestamps at the time of creation.

    [new this.userModel({...newUser, password, role})]: the document gets
    its [_id] when it is built. *)
Definition construct (newUser : ISignup.t) (password role : string) : Async Reply :=
  fun w =>
    (Resolved (Document
       {| _id := next_id w;
          email := ISignup.email newUser;
          username := ISignup.username newUser;
          password := password;
          role := role;
          confirmed := false;
          banned := None;
          twoFactorAuth := None;
          created_at := clock w;
          updated_at := clock w |}),
     mkWorld (collection w) (S (next_id w)) (clock w) (entropy w) (draws w) (trace w)).

End userModel.

(** *** Methods and properties of [userDocument] *)

Definition replace (u : User) (c : list User) : list User :=
  map (fun d => if has_id (_id u) d then u else d) c.

Definition remove (id : ObjectId) (c : list User) : list User :=
  filter (fun d => negb (has_id id d)) c.

Definition is_stored (id : ObjectId) (c : list User) : bool :=
  existsb (has_id id) c.

Module Doc.

(** [userDocument.save()] on a document made by [new]: validated against the
    schema, then inserted at the end of the collection. *)
Definition save_new `{Schema} (userDocument : Reply) : Async unit :=
  fun w =>
    match userDocument with
    | Document u =>
        if schema_accepts (collection w) u
        then (Resolved tt,
              record_effect (Saved u) (with_collection (collection w ++ [u]) w))
        else (Rejected (ValidationError "User validation failed"), w)
    | Json _ => (Rejected (TypeError "userDocument.save is not a function"), w)
    | Null => (Rejected (TypeError "Cannot read properties of null (reading 'save')"), w)
    | Undefined => (Rejected (TypeError "Cannot read properties of undefined (reading 'save')"), w)
    end.

(** [userDocument.save()] on a document loaded from the collection: the
    stored document of the same [_id] is overwritten. The paths the source
    modifies before it saves hold a string and a number it computed, the
    literal [true], or a two-factor config the schema takes as it is. *)
Definition save (userDocument : Reply) : Async unit :=
  fun w =>
    match userDocument with
    | Document u =>
        if is_stored (_id u) (collection w)
        then (Resolved tt,
              record_effect (Saved u) (with_collection (replace u (collection w)) w))
        else (Rejected DocumentNotFoundError, w)
    | Json _ => (Rejected (TypeError "userDocument.save is not a function"), w)
    | Null => (Rejected (TypeError "Cannot read properties of null (reading 'save')"), w)
    | Undefined => (Rejected (TypeError "Cannot read properties of undefined (reading 'save')"), w)
    end.

(** [userDocument.deleteOne()]: a method of documents only. *)
Definition deleteOne (userDocument : Reply) : Async unit :=
  fun w =>
    match userDocument with
    | Document u =>
        (Resolved tt,
         record_effect (Removed u) (with_collection (remove (_id u) (collection w)) w))
    | Json _ => (Rejected (TypeError "userDocument.deleteOne is not a function"), w)
    | Null => (Rejected (TypeError "Cannot read properties of null (reading 'deleteOne')"), w)
    | Undefined => (Rejected (TypeError "Cannot read properties of undefined (reading 'deleteOne')"), w)
    end.

(** [userDocument.toJSON()] *)
Definition toJSON (userDocument : Reply) : Async Reply :=
  match userDocument with
  | Document u => resolve (Json u)
  | Json _ => reject (TypeError "userDocument.toJSON is not a function")
  | Null => reject (TypeError "Cannot read properties of null (reading 'toJSON')")
  | Undefined => reject (TypeError "Cannot read properties of undefined (reading 'toJSON')")
  end.

(** [userDocument?.toJSON()]: undefined when the receiver is null or
    undefined. *)
Definition toJSON_opt (userDocument : Reply) : Async Reply :=
  match userDocument with
  | Null | Undefined => resolve Undefined
  | _ => toJSON userDocument
  end.

(** [userDocument.p = v], as the update [f] of the record. *)
Definition assign (userDocument : Reply) (f : User -> User) : Async Reply :=
  match userDocument with
  | Document u => resolve (Document (f u))
  | Json u => resolve (Json (f u))
  | Null => reject (TypeError "Cannot set properties of null")
  | Undefined => reject (TypeError "Cannot set properties of undefined")
  end.

(** [!userDocument] *)
Definition absent (userDocument : Reply) : bool :=
  match userDocument with
  | Null | Undefined => true
  | _ => false
  end.

End Doc.

Definition set_password (v : string) (u : User) : User :=
  mkUser (_id u) (email u) (username u) v (role u) (confirmed u) (banned u)
         (twoFactorAuth u) (created_at u) (updated_at u).

Definition set_updated_at (v : Z) (u : User) : User :=
  mkUser (_id u) (email u) (username u) (password u) (role u) (confirmed u) (banned u)
         (twoFactorAuth u) (created_at u) v.

Definition set_confirmed (v : bool) (u : User) : User :=
  mkUser (_id u) (email u) (username u) (password u) (role u) v (banned u)
         (twoFactorAuth u) (created_at u) (updated_at u).

Definition set_twoFactorAuth (v : TwoFactor.t) (u : User) : User :=
  mkUser (_id u) (email u) (username u) (password u) (role u) (confirmed u) (banned u)
         (Some v) (created_at u) (updated_at u).

(** ** models/user.model.service.ts *)

Module UserModelService.
Section Injected.
Context `{Bcrypt} `{Schema}.

(** [find(user, toJSON = true)] *)
Definition find (user : ILogin.t) (toJSON : bool) : Async Reply :=
  new_Promise (
    let filters := [banned_in [Some false; None]] in
    let filters :=
      if truthy (ILogin.username user)
      then filters ++ [username_is (text (ILogin.username user))]
      else filters in
    let filters :=
      if truthy (ILogin.email user)
      then filters ++ [email_is (text (ILogin.email user))]
      else filters in
    userDocument <- userModel.findOne filters ;;
    if toJSON then Doc.toJSON_opt userDocument else resolve userDocument).

(** [findAll()] *)
Definition findAll : Async (list Reply) :=
  new_Promise (
    userDocuments <- userModel.find ;;
    resolve userDocuments).

(** [findOne(filters)] *)
Definition findOne (filters : Filters) : Async Reply :=
  new_Promise (
    userDocuments <- userModel.findOne filters ;;
    resolve userDocuments).

(** [findById(id, toJSON = true)] *)
Definition findById (id : ObjectId) (toJSON : bool) : Async Reply :=
  new_Promise (
    userDocument <- userModel.findById id ;;
    if toJSON then Doc.toJSON_opt userDocument else resolve userDocument).

(** [create(user, toJSON = true)] *)
Definition create (user : ISignup.t) (toJSON : bool) : Async Reply :=
  new_Promise (
    password <- bcrypt_hash (ISignup.password user) 10 ;;
    userDocument <- userModel.construct user password "user" ;;
    Doc.save_new userDocument ;;
    emit "users/create" userDocument ;;
    if toJSON then Doc.toJSON_opt userDocument else resolve userDocument).

(** [updatePassword(userEmail, newPassword, toJSON = true)] *)
Definition updatePassword (userEmail newPassword : string) (toJSON : bool) : Async Reply :=
  new_Promise (
    password <- bcrypt_hash newPassword 10 ;;
    userDocument <- find (ILogin.mk (Some userEmail) None None) false ;;
    userDocument <- Doc.assign userDocument (set_password password) ;;
    now <- moment_unix ;;
    userDocument <- Doc.assign userDocument (set_updated_at now) ;;
    Doc.save userDocument ;;
    emit "users/password_updated" userDocument ;;
    if toJSON then Doc.toJSON_opt userDocument else resolve userDocument).

(** [emailConfirmation(userId)] *)
Definition emailConfirmation (userId : ObjectId) : Async Reply :=
  new_Promise (
    userDocument <- userModel.findById userId ;;
    if Doc.absent userDocument
    then reject (PlainError "user doesn't exist.")
    else
      userDocument <- Doc.assign userDocument (set_confirmed true) ;;
      Doc.save userDocument ;;
      emit "users/confirmed" userDocument ;;
      Doc.toJSON userDocument).

(** [updateTwoFactorAuth(userId, twoFactorAuth)] *)
Definition updateTwoFactorAuth (userId : ObjectId) (twoFactorAuth : TwoFactor.t) : Async Reply :=
  new_Promise (
    userDocument <- userModel.findById userId ;;
    if Doc.absent userDocument
    then reject (PlainError "user doesn't exist.")
    else
      userDocument <- Doc.assign userDocument (set_twoFactorAuth twoFactorAuth) ;;
      Doc.save userDocument ;;
      emit "users/2fa" userDocument ;;
      Doc.toJSON userDocument).

(** [delete(user, toJSON = true)]: the lookup is [this.find(user)], with
    [find]'s own [toJSON] left at its default. *)
Definition delete (user : ISignup.t) (toJSON : bool) : Async Reply :=
  new_Promise (
    userDocument <- find (as_login user) true ;;
    Doc.deleteOne userDocument ;;
    emit "users/delete" userDocument ;;
    if toJSON then Doc.toJSON_opt userDocument else resolve userDocument).

End Injected.
End UserModelService.

(** ** users.service.ts *)

Module UsersService.
Section Injected.
Context `{Bcrypt} `{Schema}.

Definition create (user : ISignup.t) : Async Reply :=
  new_Promise (
    userDocument <- UserModelService.create user true ;;
    resolve userDocument).

Definition findById (userId : ObjectId) : Async Reply :=
  new_Promise (
    userDocument <- UserModelService.findById userId true ;;
    resolve userDocument).

Definition find (user : ILogin.t) : Async Reply :=
  new_Promise (
    userDocument <- UserModelService.find user true ;;
    resolve userDocument).

Definition updateTwoFactorAuth (userId : ObjectId) (twoFactorAuth : TwoFactor.t) : Async Reply :=
  new_Promise (
    userDocument <- UserModelService.updateTwoFactorAuth userId twoFactorAuth ;;
    resolve userDocument).

Definition updatePassword (userEmail newPassword : string) : Async Reply :=
  new_Promise (
    userDocument <- UserModelService.updatePassword userEmail newPassword true ;;
    resolve userDocument).

Definition emailConfirmation (userId : ObjectId) : Async Reply :=
  new_Promise (
    userDocument <- UserModelService.emailConfirmation userId ;;
    resolve userDocument).

Definition delete (user : ISignup.t) : Async Reply :=
  new_Promise (
    userDocument <- UserModelService.delete user true ;;
    resolve userDocument).

End Injected.
End UsersService.

(** ** The operations as one type *)

Inductive Mutation :=
| do_create (user : ISignup.t) (toJSON : bool)
| do_updatePassword (userEmail newPassword : string) (toJSON : bool)
| do_emailConfirmation (userId : ObjectId)
| do_updateTwoFactorAuth (userId : ObjectId) (twoFactorAuth : TwoFactor.t)
| do_delete (user : ISignup.t) (toJSON : bool).

Inductive Query :=
| ask_find (user : ILogin.t) (toJSON : bool)
| ask_findAll
| ask_findOne (filters : Filters)
| ask_findById (id : ObjectId) (toJSON : bool).

Inductive Call :=
| mutating (m : Mutation)
| reading (q : Query).

Definition run `{Bcrypt} `{Schema} (m : Mutation) : Async Reply :=
  match m with
  | do_create user toJSON => UserModelService.create user toJSON
  | do_updatePassword userEmail newPassword toJSON =>
      UserModelService.updatePassword userEmail newPassword toJSON
  | do_emailConfirmation userId => UserModelService.emailConfirmation userId
  | do_updateTwoFactorAuth userId twoFactorAuth =>
      UserModelService.updateTwoFactorAuth userId twoFactorAuth
  | do_delete user toJSON => UserModelService.delete user toJSON
  end.

(** The world a call leaves behind, whatever it settled with. *)
Definition after `{Bcrypt} `{Schema} (c : Call) (w : World) : World :=
  match c with
  | mutating m => snd (run m w)
  | reading (ask_find user toJSON) => snd (UserModelService.find user toJSON w)
  | reading ask_findAll => snd (UserModelService.findAll w)
  | reading (ask_findOne filters) => snd (UserModelService.findOne filters w)
  | reading (ask_findById id toJSON) => snd (UserModelService.findById id toJSON w)
  end.

(** The event each mutating method hands to the emitter. *)
Definition event_name (m : Mutation) : string :=
  match m with
  | do_create _ _ => "users/create"
  | do_updatePassword _ _ _ => "users/password_updated"
  | do_emailConfirmation _ => "users/confirmed"
  | do_updateTwoFactorAuth _ _ => "users/2fa"
  | do_delete _ _ => "users/delete"
  end.

(** The write each mutating method asks of the store. *)
Definition write_of (m : Mutation) (u : User) : Effect :=
  match m with
  | do_delete _ _ => Removed u
  | _ => Saved u
  end.

Definition is_delete (m : Mutation) : bool :=
  match m with
  | do_delete _ _ => true
  | _ => false
  end.

(** The account a settled value carries, if any. *)
Definition account_of (r : Settled Reply) : option User :=
  match r with
  | Resolved (Document u) | Resolved (Json u) => Some u
  | _ => None
  end.

(** What a lookup method resolves with for the outcome [r] of the query. *)
Definition shown (toJSON : bool) (r : option User) : Reply :=
  match r with
  | Some u => if toJSON then Json u else Document u
  | None => if toJSON then Undefined else Null
  end.

(** ** Vocabulary of the specification *)

(** An account is active when it is not banned: [banned] false or null. *)
Definition active (u : User) : bool :=
  match banned u with
  | Some true => false
  | _ => true
  end.

(** An optional property is supplied when it holds a non-empty string; a
    supplied property must be matched. *)
Definition agrees (supplied : option string) (stored : string) : bool :=
  match supplied with
  | Some v => if v =? "" then true else stored =? v
  | None => true
  end.

(** The accounts a credential lookup is after: the active ones that agree
    with every supplied property. *)
Definition selects (user : ILogin.t) (u : User) : bool :=
  active u && agrees (ILogin.username user) (username u)
           && agrees (ILogin.email user) (email u).

(** The store is well formed when no two documents share an [_id] and every
    [_id] in use was handed out before. *)
Definition well_formed (w : World) : Prop :=
  NoDup (map _id (collection w)) /\
  Forall (fun id => id < next_id w) (map _id (collection w)).

(** The state of the world with everything but the clock and the salts
    given anew. *)
Definition moved (w : World) (c : list User) (id : ObjectId) (n : nat)
    (t : list Effect) : World :=
  mkWorld c id (clock w) (entropy w) n t.

(** The digest [bcrypt.hash] gives next in the world [w]. *)
Definition next_digest `{Bcrypt} (w : World) (data : string) : string :=
  bcrypt_digest (entropy w (draws w)) 10 data.

(** A signup is valid in a world when the schema lets in the document that
    is built from it there. *)
Definition valid_signup `{Bcrypt} `{Schema} (user : ISignup.t) (w : World) : bool :=
  match fst ((password <- bcrypt_hash (ISignup.password user) 10 ;;
              userModel.construct user password "user") w) with
  | Resolved (Document u) => schema_accepts (collection w) u
  | _ => false
  end.

(** The events of a trace, in order. *)
Definition events (t : list Effect) : list (string * Reply) :=
  flat_map (fun e => match e with Emitted n p => [(n, p)] | _ => [] end) t.

(** ** Stand-ins to run the model on *)

(** A digest with the shape of bcrypt's, to evaluate the methods with. *)
Definition toy_digest (salt : string) (cost : nat) (data : string) : string :=
  String.append "$2b$10$" (String.append salt data).

Definition toy_bcrypt : Bcrypt := {| bcrypt_digest := toy_digest |}.

(** Modelled from the spec: the constraints on a new account that the
    schema of [UserNamespace.Safe] (package @hsuite/users-types, not in src)
    and the indexes of the collection carry. The spec has creation fail when
    a required field is missing or when the email or the username is already
    taken. *)
Definition unique_and_required (c : list User) (u : User) : bool :=
  negb (email u =? "") && negb (username u =? "") && negb (password u =? "")
  && negb (existsb (fun d => email d =? email u) c)
  && negb (existsb (fun d => username d =? username u) c).

Definition spec_schema : Schema := {| schema_accepts := unique_and_required |}.

Definition salts (n : nat) : string :=
  match n with
  | 0 => "N9qo8uLOickgx2ZMRZoMye"
  | 1 => "IjZAgcfl7p92ldGxad68LJ"
  | _ => "Xk3mPq7RsT1uVw5yZa9BcD"
  end.

Definition alice : User :=
  {| _id := 0; email := "a@x.com"; username := "a";
     password := "$2b$10$N9qo8uLOickgx2ZMRZoMyepw123456";
     role := "user"; confirmed := true; banned := None;
     twoFactorAuth :=
       Some (TwoFactor.mk (Some true) (Some "OLD") (Some true) (Some ["12345"; "67890"]));
     created_at := 1700000000; updated_at := 1700000000 |}.

Definition mallory : User :=
  {| _id := 1; email := "m@x.com"; username := "m";
     password := "$2b$10$IjZAgcfl7p92ldGxad68LJhunter2";
     role := "user"; confirmed := false; banned := Some true;
     twoFactorAuth := None;
     created_at := 1700000100; updated_at := 1700000100 |}.

Definition empty_world : World := mkWorld [] 0 1700000000 salts 0 [].

Definition first_signup : ISignup.t := ISignup.mk "a@x.com" "a" "pw123456".

(** [alice] after a password update in [small_world]. *)
Definition alice_rehashed : User :=
  set_updated_at 1700000500
    (set_password "$2b$10$Xk3mPq7RsT1uVw5yZa9BcDnewpw789" alice).

Definition by_alice_email : ILogin.t := ILogin.mk (Some "a@x.com") None None.

Definition by_unknown_email : ILogin.t := ILogin.mk (Some "nobody@x.com") None None.

Definition by_nothing : ILogin.t := ILogin.mk None (Some "") None.

Definition fresh_config : TwoFactor.t :=
  TwoFactor.mk (Some true) (Some "NEW") None None.

Definition small_world : World := mkWorld [alice; mallory] 2 1700000500 salts 2 [].

(** ** Sequences of calls *)

(** The world after the calls [cs], made one after the other. *)
Definition session `{Bcrypt} `{Schema} (cs : list Call) (w : World) : World :=
  fold_left (fun w' c => after c w') cs w.

(** The calls whose method opens with [bcrypt.hash]. *)
Definition hashes (c : Call) : bool :=
  match c with
  | mutating (do_create _ _) => true
  | mutating (do_updatePassword _ _ _) => true
  | _ => false
  end.

(** Two states of an account that differ at most in what the update
    methods assign: the password, [updated_at], [confirmed] and the
    two-factor config. *)
Definition same_identity (a b : User) : Prop :=
  _id a = _id b /\ email a = email b /\ username a = username b
  /\ role a = role b /\ banned a = banned b /\ created_at a = created_at b.

(** A trace made of writes that are each followed at once by the event for
    the document written, and of nothing else. *)
Inductive paired : list Effect -> Prop :=
| paired_nil : paired []
| paired_snoc (t : list Effect) (u : User) (event : string) :
    paired t -> paired (t ++ [Saved u; Emitted event (Document u)]).

Definition sample_calls : list Call :=
  [mutating (do_create first_signup true);
   mutating (do_emailConfirmation 0);
   mutating (do_updatePassword "a@x.com" "newpw789" true);
   mutating (do_delete first_signup true);
   mutating (do_create first_signup false);
   reading ask_findAll].

Definition stale_config : TwoFactor.t :=
  TwoFactor.mk (Some false) None (Some false) (Some ["00000"]).

(** Decides [well_formed] on a store that is written out. *)
Ltac store_checked :=
  unfold well_formed; cbn; split; repeat constructor; cbn;
  intuition (try discriminate; try lia).

(** * Properties *)

(** ** The promise wrapper and the collection *)

Lemma new_Promise_same {A} (body : Async A) (w : World) :
  new_Promise body w = body w.
Proof.
  unfold new_Promise. destruct (body w) as [[a | error] w']; reflexivity.
Qed.

Lemma find_pointwise {A} (f g : A -> bool) (l : list A) :
  (forall x, f x = g x) -> List.find f l = List.find g l.
Proof.
  intros E. induction l as [| x l IH]; simpl.
  - reflexivity.
  - rewrite E, IH. reflexivity.
Qed.

Lemma find_first_of_filter {A} (f : A -> bool) (l : list A) :
  List.find f l = hd_error (filter f l).
Proof.
  induction l as [| x l IH]; simpl.
  - reflexivity.
  - destruct (f x); simpl; auto.
Qed.

Lemma has_id_after_replace (id : ObjectId) (u d : User) :
  has_id id (if has_id (_id u) d then u else d) = has_id id d.
Proof.
  destruct (has_id (_id u) d) eqn:E; [| reflexivity].
  unfold has_id in *. apply Nat.eqb_eq in E. rewrite E. reflexivity.
Qed.

Lemma lookup_replace (id : ObjectId) (u : User) (c : list User) :
  lookup id (replace u c) =
  option_map (fun d => if has_id (_id u) d then u else d) (lookup id c).
Proof.
  unfold lookup, replace. induction c as [| d c IH]; simpl.
  - reflexivity.
  - rewrite has_id_after_replace. destruct (has_id id d); simpl; auto.
Qed.

Lemma lookup_app_found (id : ObjectId) (c c' : list User) (u : User) :
  lookup id c = Some u -> lookup id (c ++ c') = Some u.
Proof.
  unfold lookup. induction c as [| d c IH]; simpl; [discriminate |].
  destruct (has_id id d); auto.
Qed.

Lemma lookup_has_id (id : ObjectId) (c : list User) (u : User) :
  lookup id c = Some u -> In u c /\ _id u = id.
Proof.
  unfold lookup. intros E. apply find_some in E. destruct E as [I E].
  split; [exact I | apply Nat.eqb_eq, E].
Qed.

Lemma lookup_stored (c : list User) (u : User) :
  NoDup (map _id c) -> In u c -> lookup (_id u) c = Some u.
Proof.
  unfold lookup. induction c as [| d c IH]; simpl; intros N I; [contradiction |].
  inversion N as [| x l Fresh N']; subst.
  destruct I as [-> | I].
  - unfold has_id. rewrite Nat.eqb_refl. reflexivity.
  - destruct (has_id (_id u) d) eqn:E.
    + exfalso. apply Fresh. unfold has_id in E. apply Nat.eqb_eq in E.
      rewrite E. apply in_map. exact I.
    + auto.
Qed.

Lemma stored_when_in (c : list User) (u : User) :
  In u c -> is_stored (_id u) c = true.
Proof.
  intros I. unfold is_stored. apply existsb_exists. exists u. split; [exact I |].
  unfold has_id. apply Nat.eqb_refl.
Qed.

Lemma in_replace (c : list User) (u : User) :
  is_stored (_id u) c = true -> In u (replace u c).
Proof.
  unfold is_stored, replace. intros E. apply existsb_exists in E.
  destruct E as [d [I E]]. apply in_map_iff. exists d. rewrite E. auto.
Qed.

Lemma ids_after_replace (c : list User) (u : User) :
  map _id (replace u c) = map _id c.
Proof.
  unfold replace. induction c as [| d c IH]; simpl; [reflexivity |].
  rewrite IH. f_equal. destruct (has_id (_id u) d) eqn:E; [| reflexivity].
  unfold has_id in E. apply Nat.eqb_eq in E. auto.
Qed.

Lemma trace_two (t : list Effect) (a b : Effect) :
  (t ++ [a]) ++ [b] = t ++ [a; b].
Proof. rewrite <- app_assoc. reflexivity. Qed.

(** ** What [find] evaluates to *)

Lemma ban_filter_is_active (u : User) :
  holds (banned_in [Some false; None]) u = active u.
Proof.
  unfold holds, active, same_flag. simpl.
  destruct (banned u) as [[|] |]; reflexivity.
Qed.

Lemma agrees_when_falsy (s : option string) (stored : string) :
  truthy s = false -> agrees s stored = true.
Proof.
  destruct s as [v |]; simpl; [| reflexivity].
  destruct (v =? ""); [reflexivity | discriminate].
Qed.

Lemma agrees_when_truthy (s : option string) (stored : string) :
  truthy s = true -> agrees s stored = (stored =? text s).
Proof.
  destruct s as [v |]; simpl; [| discriminate].
  destruct (v =? ""); [discriminate | reflexivity].
Qed.

Section WithCollaborators.
Context `{Bcrypt} `{Schema}.

(** The filter object [find] builds picks exactly the accounts the lookup
    is after. *)
Lemma find_resolves (user : ILogin.t) (toJSON : bool) (w : World) :
  UserModelService.find user toJSON w =
  (Resolved (shown toJSON (List.find (selects user) (collection w))), w).
Proof.
  unfold UserModelService.find. rewrite new_Promise_same.
  unfold await, userModel.findOne.
  match goal with
  | |- context [List.find (matches ?F) _] =>
      rewrite (find_pointwise (matches F) (selects user))
  end.
  - destruct (List.find (selects user) (collection w)) as [u |];
      destruct toJSON; reflexivity.
  - intros u. unfold selects.
    destruct (truthy (ILogin.username user)) eqn:Eu;
      destruct (truthy (ILogin.email user)) eqn:Ee;
      cbn [matches forallb app];
      rewrite ban_filter_is_active;
      repeat match goal with
      | E : truthy ?s = true |- context [agrees ?s ?x] =>
          rewrite (agrees_when_truthy s x E)
      | E : truthy ?s = false |- context [agrees ?s ?x] =>
          rewrite (agrees_when_falsy s x E)
      end;
      cbn [holds]; rewrite ?andb_true_r, ?andb_assoc; reflexivity.
Qed.

Lemma findById_resolves (id : ObjectId) (toJSON : bool) (w : World) :
  UserModelService.findById id toJSON w =
  (Resolved (shown toJSON (lookup id (collection w))), w).
Proof.
  unfold UserModelService.findById. rewrite new_Promise_same.
  unfold await, userModel.findById.
  destruct (lookup id (collection w)); destruct toJSON; reflexivity.
Qed.

End WithCollaborators.

(** ** What the mutating methods evaluate to *)

Lemma same_id_same_document (c : list User) (u d : User) :
  NoDup (map _id c) -> In u c -> In d c -> _id d = _id u -> d = u.
Proof.
  induction c as [| x c IH]; simpl; intros N Iu Id E; [contradiction |].
  inversion N as [| i l Fresh N']; subst.
  destruct Iu as [-> | Iu], Id as [-> | Id]; auto.
  - exfalso. apply Fresh. rewrite <- E. apply in_map. exact Id.
  - exfalso. apply Fresh. rewrite E. apply in_map. exact Iu.
Qed.

Lemma replace_by_itself (c : list User) (u : User) :
  NoDup (map _id c) -> In u c -> replace u c = c.
Proof.
  intros N I. unfold replace. rewrite <- (map_id c) at 2.
  apply map_ext_in. intros d Id.
  destruct (has_id (_id u) d) eqn:E; [| reflexivity].
  unfold has_id in E. apply Nat.eqb_eq in E.
  symmetry. apply (same_id_same_document c); assumption.
Qed.

Section Evaluation.
Context `{Bcrypt} `{Schema}.

Lemma create_resolves (user : ISignup.t) (toJSON : bool) (w : World) :
  valid_signup user w = true ->
  exists u,
    UserModelService.create user toJSON w =
      (Resolved (shown toJSON (Some u)),
       moved w (collection w ++ [u]) (S (next_id w)) (S (draws w))
             (trace w ++ [Saved u; Emitted "users/create" (Document u)]))
    /\ _id u = next_id w
    /\ email u = ISignup.email user
    /\ username u = ISignup.username user
    /\ password u = next_digest w (ISignup.password user)
    /\ role u = "user"
    /\ confirmed u = false
    /\ banned u = None
    /\ twoFactorAuth u = None.
Proof.
  unfold valid_signup, UserModelService.create. rewrite new_Promise_same.
  unfold await, bcrypt_hash, userModel.construct, Doc.save_new, emit, record_effect,
    with_collection, moved, next_digest. cbn [fst collection next_id clock entropy draws trace].
  intros V. rewrite V. cbn [collection next_id clock entropy draws trace]. eexists. split.
  - rewrite trace_two. destruct toJSON; reflexivity.
  - cbn. repeat split.
Qed.

Lemma create_rejects (user : ISignup.t) (toJSON : bool) (w : World) :
  valid_signup user w = false ->
  UserModelService.create user toJSON w =
    (Rejected (ValidationError "User validation failed"),
     moved w (collection w) (S (next_id w)) (S (draws w)) (trace w)).
Proof.
  unfold valid_signup, UserModelService.create. rewrite new_Promise_same.
  unfold await, bcrypt_hash, userModel.construct, Doc.save_new, moved.
  cbn [fst collection next_id clock entropy draws trace].
  intros V. rewrite V. reflexivity.
Qed.

Lemma updatePassword_evaluates (userEmail newPassword : string) (toJSON : bool) (w : World) :
  UserModelService.updatePassword userEmail newPassword toJSON w =
    match List.find (selects (ILogin.mk (Some userEmail) None None)) (collection w) with
    | Some u0 =>
        let u := set_updated_at (clock w) (set_password (next_digest w newPassword) u0) in
        (Resolved (shown toJSON (Some u)),
         moved w (replace u (collection w)) (next_id w) (S (draws w))
               (trace w ++ [Saved u; Emitted "users/password_updated" (Document u)]))
    | None =>
        (Rejected (TypeError "Cannot set properties of null"),
         moved w (collection w) (next_id w) (S (draws w)) (trace w))
    end.
Proof.
  unfold UserModelService.updatePassword. rewrite new_Promise_same.
  unfold await at 1. unfold bcrypt_hash at 1.
  unfold await at 1. rewrite find_resolves.
  cbn [collection shown].
  destruct (List.find _ (collection w)) as [u0 |] eqn:F.
  - apply find_some in F. destruct F as [I _].
    unfold await, Doc.assign, resolve, moment_unix, Doc.save, emit, record_effect,
      with_collection, moved, next_digest.
    cbn [shown found collection next_id clock entropy draws trace].
    match goal with
    | |- context [is_stored ?i ?c] =>
        change (is_stored i c) with (is_stored (_id u0) (collection w))
    end.
    rewrite (stored_when_in (collection w) u0 I).
    cbn [collection next_id clock entropy draws trace].
    rewrite trace_two. destruct toJSON; reflexivity.
  - reflexivity.
Qed.

Lemma emailConfirmation_evaluates (userId : ObjectId) (w : World) :
  UserModelService.emailConfirmation userId w =
    match lookup userId (collection w) with
    | Some u0 =>
        let u := set_confirmed true u0 in
        (Resolved (Json u),
         moved w (replace u (collection w)) (next_id w) (draws w)
               (trace w ++ [Saved u; Emitted "users/confirmed" (Document u)]))
    | None => (Rejected (PlainError "user doesn't exist."), w)
    end.
Proof.
  unfold UserModelService.emailConfirmation. rewrite new_Promise_same.
  unfold await at 1. unfold userModel.findById.
  destruct (lookup userId (collection w)) as [u0 |] eqn:F.
  - apply lookup_has_id in F. destruct F as [I _].
    unfold await, Doc.assign, resolve, Doc.save, emit, record_effect,
      with_collection, moved.
    cbn [found Doc.absent collection next_id clock entropy draws trace].
    match goal with
    | |- context [is_stored ?i ?c] =>
        change (is_stored i c) with (is_stored (_id u0) (collection w))
    end.
    rewrite (stored_when_in (collection w) u0 I).
    cbn [collection next_id clock entropy draws trace].
    rewrite trace_two. reflexivity.
  - reflexivity.
Qed.

Lemma updateTwoFactorAuth_evaluates (userId : ObjectId) (twoFactorAuth : TwoFactor.t)
    (w : World) :
  UserModelService.updateTwoFactorAuth userId twoFactorAuth w =
    match lookup userId (collection w) with
    | Some u0 =>
        let u := set_twoFactorAuth twoFactorAuth u0 in
        (Resolved (Json u),
         moved w (replace u (collection w)) (next_id w) (draws w)
               (trace w ++ [Saved u; Emitted "users/2fa" (Document u)]))
    | None => (Rejected (PlainError "user doesn't exist."), w)
    end.
Proof.
  unfold UserModelService.updateTwoFactorAuth. rewrite new_Promise_same.
  unfold await at 1. unfold userModel.findById.
  destruct (lookup userId (collection w)) as [u0 |] eqn:F.
  - apply lookup_has_id in F. destruct F as [I _].
    unfold await, Doc.assign, resolve, Doc.save, emit, record_effect,
      with_collection, moved.
    cbn [found Doc.absent collection next_id clock entropy draws trace].
    match goal with
    | |- context [is_stored ?i ?c] =>
        change (is_stored i c) with (is_stored (_id u0) (collection w))
    end.
    rewrite (stored_when_in (collection w) u0 I).
    cbn [collection next_id clock entropy draws trace].
    rewrite trace_two. reflexivity.
  - reflexivity.
Qed.

(** [delete] looks the account up with [find]'s [toJSON] at its default, so
    what it holds is a plain object or undefined, and [deleteOne] is a
    method of neither. *)
Lemma delete_evaluates (user : ISignup.t) (toJSON : bool) (w : World) :
  UserModelService.delete user toJSON w =
    (Rejected (TypeError
       match List.find (selects (as_login user)) (collection w) with
       | Some _ => "userDocument.deleteOne is not a function"
       | None => "Cannot read properties of undefined (reading 'deleteOne')"
       end), w).
Proof.
  unfold UserModelService.delete. rewrite new_Promise_same.
  unfold await at 1. rewrite find_resolves.
  destruct (List.find _ (collection w)); reflexivity.
Qed.

End Evaluation.

(** ** Registration *)

Section Registration.
Context `{Bcrypt} `{Schema}.

(** The digest never gives the data back: bcrypt's output is a 60-character
    string that opens with the version and the cost. *)
Hypothesis one_way :
  forall salt cost data, bcrypt_digest salt cost data <> data.

(** C1. For every valid signup, [create] resolves with a record that it has
    written to the collection; the password of that record is the bcrypt
    digest of the raw password under a salt drawn for the call, at cost 10,
    and is not the raw password; its role is "user", it is not confirmed and
    it has no two-factor config. *)
Theorem create_stores_salted_hash (user : ISignup.t) (toJSON : bool) (w : World) :
  valid_signup user w = true ->
  exists u,
    fst (UserModelService.create user toJSON w) = Resolved (shown toJSON (Some u))
    /\ In u (collection (snd (UserModelService.create user toJSON w)))
    /\ In (Saved u) (trace (snd (UserModelService.create user toJSON w)))
    /\ password u = bcrypt_digest (entropy w (draws w)) 10 (ISignup.password user)
    /\ password u <> ISignup.password user
    /\ role u = "user"
    /\ confirmed u = false
    /\ twoFactorAuth u = None.
Proof.
  intros V.
  destruct (create_resolves user toJSON w V)
    as [u [E [_ [_ [_ [P [R [C [_ T]]]]]]]]].
  exists u. rewrite E. cbn [fst snd moved collection trace].
  repeat split; auto.
  - apply in_or_app. right. left. reflexivity.
  - apply in_or_app. right. left. reflexivity.
  - rewrite P. apply one_way.
Qed.

End Registration.

(** ** Lookups *)

(** C2. An account with [banned == true] is never what [find] resolves
    with, whatever the credentials and the [toJSON] flag, and [findById]
    still resolves with it. *)
Theorem banned_hidden_from_find_only (w : World) (u : User) :
  well_formed w ->
  In u (collection w) ->
  banned u = Some true ->
  (forall user toJSON,
     account_of (fst (UserModelService.find user toJSON w)) <> Some u)
  /\ UserModelService.findById (_id u) true w = (Resolved (Json u), w)
  /\ UserModelService.findById (_id u) false w = (Resolved (Document u), w).
Proof.
  intros [N _] I B. split; [| split].
  - intros user toJSON. rewrite find_resolves. cbn [fst].
    destruct (List.find (selects user) (collection w)) as [d |] eqn:F.
    + apply find_some in F. destruct F as [_ S].
      assert (active d = true) as A.
      { unfold selects in S. apply andb_prop in S. destruct S as [S _].
        apply andb_prop in S. tauto. }
      assert (d <> u) as D.
      { intros ->. unfold active in A. rewrite B in A. discriminate. }
      destruct toJSON; cbn; congruence.
    + destruct toJSON; cbn; discriminate.
  - rewrite findById_resolves, (lookup_stored _ _ N I). reflexivity.
  - rewrite findById_resolves, (lookup_stored _ _ N I). reflexivity.
Qed.

(** C3, as the code has it. When exactly one active account agrees with
    every supplied property of the credentials (a property is supplied when
    it holds a non-empty string), [find] resolves with that account; when
    none does, [find] still resolves, with undefined (with null when
    [toJSON] is off). *)
Theorem find_one_or_nothing (user : ILogin.t) (toJSON : bool) (w : World) :
  (forall u,
     filter (selects user) (collection w) = [u] ->
     UserModelService.find user toJSON w =
       (Resolved (if toJSON then Json u else Document u), w))
  /\ (filter (selects user) (collection w) = [] ->
      UserModelService.find user toJSON w =
        (Resolved (if toJSON then Undefined else Null), w)).
Proof.
  split; [intros u E | intros E];
    rewrite find_resolves, find_first_of_filter, E; reflexivity.
Qed.

(** C10. With neither an email nor a username supplied, [find] does not
    fail: it resolves with the first account of the collection that is not
    banned, or with an empty value when there is none. *)
Theorem find_without_credentials (user : ILogin.t) (toJSON : bool) (w : World) :
  truthy (ILogin.email user) = false ->
  truthy (ILogin.username user) = false ->
  UserModelService.find user toJSON w =
    (Resolved (shown toJSON (List.find active (collection w))), w).
Proof.
  intros Ee Eu. rewrite find_resolves.
  rewrite (find_pointwise (selects user) active); [reflexivity |].
  intros u. unfold selects.
  rewrite (agrees_when_falsy _ _ Ee), (agrees_when_falsy _ _ Eu).
  rewrite !andb_true_r. reflexivity.
Qed.

(** ** Two-factor settings *)

(** C7. For every stored account, [updateTwoFactorAuth] resolves with the
    account as it now stands, and the config stored for it is the argument
    itself: each of its four properties is the argument's, so nothing of
    the config held before is left. *)
Theorem updateTwoFactorAuth_replaces (userId : ObjectId) (twoFactorAuth0 : TwoFactor.t)
    (w : World) (u0 : User) :
  lookup userId (collection w) = Some u0 ->
  exists u,
    fst (UserModelService.updateTwoFactorAuth userId twoFactorAuth0 w) = Resolved (Json u)
    /\ lookup userId
         (collection (snd (UserModelService.updateTwoFactorAuth userId twoFactorAuth0 w)))
       = Some u
    /\ twoFactorAuth u = Some twoFactorAuth0
    /\ option_map TwoFactor.backupCodes (twoFactorAuth u)
       = Some (TwoFactor.backupCodes twoFactorAuth0)
    /\ u = set_twoFactorAuth twoFactorAuth0 u0.
Proof.
  intros L. rewrite updateTwoFactorAuth_evaluates, L.
  exists (set_twoFactorAuth twoFactorAuth0 u0).
  cbn [fst snd moved collection]. repeat split.
  rewrite lookup_replace, L. cbn [option_map].
  apply lookup_has_id in L. destruct L as [_ L].
  unfold has_id. cbn [_id set_twoFactorAuth]. rewrite Nat.eqb_refl. reflexivity.
Qed.

(** ** The delegating service *)

Section Delegation.
Context `{Bcrypt} `{Schema}.

(** C9. Each of the seven methods of [UsersService] settles exactly as the
    method of [UserModelService] it calls, on the same arguments (with
    [toJSON] left at its default, true, where there is one), and leaves the
    same world behind. *)
Theorem UsersService_delegates (w : World) :
  (forall user, UsersService.create user w = UserModelService.create user true w)
  /\ (forall userId, UsersService.findById userId w = UserModelService.findById userId true w)
  /\ (forall user, UsersService.find user w = UserModelService.find user true w)
  /\ (forall userId twoFactorAuth0,
        UsersService.updateTwoFactorAuth userId twoFactorAuth0 w =
        UserModelService.updateTwoFactorAuth userId twoFactorAuth0 w)
  /\ (forall userEmail newPassword,
        UsersService.updatePassword userEmail newPassword w =
        UserModelService.updatePassword userEmail newPassword true w)
  /\ (forall userId,
        UsersService.emailConfirmation userId w = UserModelService.emailConfirmation userId w)
  /\ (forall user, UsersService.delete user w = UserModelService.delete user true w).
Proof.
  assert (forward : forall (m : Async Reply),
            new_Promise (userDocument <- m ;; resolve userDocument) w = m w).
  { intros m. rewrite new_Promise_same. unfold await, resolve.
    destruct (m w) as [[r | error] w']; reflexivity. }
  repeat split; intros; apply forward.
Qed.

End Delegation.

(** ** Every call, one by one *)

Section Calls.
Context `{Bcrypt} `{Schema}.

Lemma reading_changes_nothing (q : Query) (w : World) :
  after (reading q) w = w.
Proof.
  destruct q as [user toJSON | | filters | id toJSON]; cbn [after].
  - rewrite find_resolves. reflexivity.
  - reflexivity.
  - reflexivity.
  - rewrite findById_resolves. reflexivity.
Qed.

(** Every call keeps the store well formed. *)
Lemma well_formed_after (c : Call) (w : World) :
  well_formed w -> well_formed (after c w).
Proof.
  intros [N B]. destruct c as [m | q]; [| rewrite reading_changes_nothing; split; assumption].
  assert (kept : forall u n t, is_stored (_id u) (collection w) = true ->
            well_formed (moved w (replace u (collection w)) (next_id w) n t)).
  { intros u n t _. unfold well_formed, moved. cbn [collection next_id].
    rewrite ids_after_replace. split; assumption. }
  destruct m as [user toJSON | userEmail newPassword toJSON | userId
                 | userId twoFactorAuth0 | user toJSON]; cbn [after run].
  - destruct (valid_signup user w) eqn:V.
    + destruct (create_resolves user toJSON w V) as [u [E [I _]]].
      rewrite E. unfold well_formed, moved. cbn [snd collection next_id].
      rewrite map_app. cbn [map]. rewrite I. split.
      * apply NoDup_app; [assumption | repeat constructor; intros [] |].
        intros i Ii [<- | []]. rewrite Forall_forall in B.
        apply B in Ii. lia.
      * apply Forall_app. split.
        -- eapply Forall_impl; [| exact B]. cbn. intros. lia.
        -- repeat constructor.
    + rewrite (create_rejects user toJSON w V).
      unfold well_formed, moved. cbn [snd collection next_id]. split; [assumption |].
      eapply Forall_impl; [| exact B]. cbn. intros. lia.
  - rewrite updatePassword_evaluates.
    destruct (List.find _ (collection w)) as [u0 |] eqn:F; cbn [snd].
    + apply kept. apply find_some in F. apply (stored_when_in _ u0), F.
    + split; assumption.
  - rewrite emailConfirmation_evaluates.
    destruct (lookup userId (collection w)) as [u0 |] eqn:F; cbn [snd].
    + apply kept. apply lookup_has_id in F. apply (stored_when_in _ u0), F.
    + split; assumption.
  - rewrite updateTwoFactorAuth_evaluates.
    destruct (lookup userId (collection w)) as [u0 |] eqn:F; cbn [snd].
    + apply kept. apply lookup_has_id in F. apply (stored_when_in _ u0), F.
    + split; assumption.
  - rewrite delete_evaluates. split; assumption.
Qed.

(** C6. On a stored account that is already confirmed, [emailConfirmation]
    resolves with the account as it was and leaves the collection as it
    was; and whatever the call to the module, an account that was confirmed
    before the call and is still stored after it is still confirmed. *)
Theorem confirmed_never_reset (w : World) :
  well_formed w ->
  (forall userId u,
     lookup userId (collection w) = Some u ->
     confirmed u = true ->
     fst (UserModelService.emailConfirmation userId w) = Resolved (Json u)
     /\ collection (snd (UserModelService.emailConfirmation userId w)) = collection w
     /\ fst (UserModelService.emailConfirmation userId
               (snd (UserModelService.emailConfirmation userId w)))
        = Resolved (Json u))
  /\ (forall (c : Call) id u u',
        lookup id (collection w) = Some u ->
        confirmed u = true ->
        lookup id (collection (after c w)) = Some u' ->
        confirmed u' = true).
Proof.
  intros [N B]. split.
  - intros userId u L C.
    assert (set_confirmed true u = u) as Same.
    { destruct u. cbn in C. subst. reflexivity. }
    assert (replace u (collection w) = collection w) as Kept.
    { apply replace_by_itself; [assumption | apply (lookup_has_id _ _ _ L)]. }
    rewrite emailConfirmation_evaluates, L. cbn zeta.
    rewrite Same, Kept. cbn [fst snd].
    rewrite emailConfirmation_evaluates. cbn [moved collection].
    rewrite L. cbn zeta. rewrite Same. auto.
  - intros c id u u' L C.
    destruct c as [m | q]; [| rewrite reading_changes_nothing; congruence].
    assert (overwritten : forall u0 u1 n t,
              In u0 (collection w) -> _id u1 = _id u0 ->
              (u0 = u -> confirmed u1 = true) ->
              lookup id (collection
                 (moved w (replace u1 (collection w)) (next_id w) n t)) = Some u' ->
              confirmed u' = true).
    { intros u0 u1 n t I0 Id Keeps. cbn [moved collection].
      rewrite lookup_replace, L. cbn [option_map]. intros E.
      injection E as <-.
      destruct (has_id (_id u1) u) eqn:S; [| exact C].
      apply Keeps. symmetry.
      apply (same_id_same_document (collection w)); auto.
      - apply (lookup_has_id _ _ _ L).
      - unfold has_id in S. apply Nat.eqb_eq in S. congruence. }
    destruct m as [user toJSON | userEmail newPassword toJSON | userId
                   | userId twoFactorAuth0 | user toJSON]; cbn [after run].
    + destruct (valid_signup user w) eqn:V.
      * destruct (create_resolves user toJSON w V) as [u1 [E _]].
        rewrite E. cbn [snd moved collection].
        rewrite (lookup_app_found _ _ [u1] _ L). congruence.
      * rewrite (create_rejects user toJSON w V). cbn [snd moved collection].
        congruence.
    + rewrite updatePassword_evaluates.
      destruct (List.find _ (collection w)) as [u0 |] eqn:F; cbn [snd].
      * apply (overwritten u0); [apply (find_some _ _ F) | reflexivity |].
        intros ->. exact C.
      * cbn [moved collection]. congruence.
    + rewrite emailConfirmation_evaluates.
      destruct (lookup userId (collection w)) as [u0 |] eqn:F; cbn [snd].
      * apply (overwritten u0); [apply (lookup_has_id _ _ _ F) | reflexivity |].
        reflexivity.
      * congruence.
    + rewrite updateTwoFactorAuth_evaluates.
      destruct (lookup userId (collection w)) as [u0 |] eqn:F; cbn [snd].
      * apply (overwritten u0); [apply (lookup_has_id _ _ _ F) | reflexivity |].
        intros ->. exact C.
      * congruence.
    + rewrite delete_evaluates. cbn [snd]. congruence.
Qed.

(** C8. A mutating method that resolves has added exactly two effects to
    the trace: the write of the account, then one event with the method's
    own name whose payload is the document as written; what it resolves
    with is that account, which (for all but [delete]) is in the collection.
    A mutating method that is rejected has added nothing to the trace and
    has left the collection as it was. *)
Theorem one_event_after_each_write (m : Mutation) (w : World) :
  match run m w with
  | (Resolved r, w') =>
      exists u,
        trace w' = trace w ++ [write_of m u; Emitted (event_name m) (Document u)]
        /\ events (trace w') = events (trace w) ++ [(event_name m, Document u)]
        /\ account_of (Resolved r) = Some u
        /\ (is_delete m = false -> In u (collection w'))
  | (Rejected _, w') =>
      trace w' = trace w /\ collection w' = collection w
  end.
Proof.
  assert (emitted : forall t u n p,
            events (t ++ [Saved u; Emitted n p]) = events t ++ [(n, p)]).
  { intros. unfold events. rewrite flat_map_app. reflexivity. }
  destruct m as [user toJSON | userEmail newPassword toJSON | userId
                 | userId twoFactorAuth0 | user toJSON]; cbn [run].
  - destruct (valid_signup user w) eqn:V.
    + destruct (create_resolves user toJSON w V) as [u [E _]].
      rewrite E. exists u. cbn [moved trace collection write_of event_name].
      rewrite emitted. repeat split.
      * destruct toJSON; reflexivity.
      * intros _. apply in_or_app. right. left. reflexivity.
    + rewrite (create_rejects user toJSON w V). split; reflexivity.
  - rewrite updatePassword_evaluates.
    destruct (List.find _ (collection w)) as [u0 |] eqn:F; cbn zeta.
    + eexists. cbn [moved trace collection write_of event_name].
      rewrite emitted. repeat split.
      * destruct toJSON; reflexivity.
      * intros _. apply in_replace. apply (stored_when_in _ u0), (find_some _ _ F).
    + split; reflexivity.
  - rewrite emailConfirmation_evaluates.
    destruct (lookup userId (collection w)) as [u0 |] eqn:F; cbn zeta.
    + eexists. cbn [moved trace collection write_of event_name].
      rewrite emitted. repeat split.
      intros _. apply in_replace. apply (stored_when_in _ u0), (lookup_has_id _ _ _ F).
    + split; reflexivity.
  - rewrite updateTwoFactorAuth_evaluates.
    destruct (lookup userId (collection w)) as [u0 |] eqn:F; cbn zeta.
    + eexists. cbn [moved trace collection write_of event_name].
      rewrite emitted. repeat split.
      intros _. apply in_replace. apply (stored_when_in _ u0), (lookup_has_id _ _ _ F).
    + split; reflexivity.
  - rewrite delete_evaluates. split; reflexivity.
Qed.

End Calls.

(** ** Password updates *)

Section PasswordUpdate.
Context `{Bcrypt}.

(** With a non-empty email, [updatePassword] looks the account up by that
    email and the ban exclusion alone. When no active account has the
    email, the call is rejected and the collection stays as it was. *)
Lemma updatePassword_unknown_email (userEmail newPassword : string) (toJSON : bool)
    (w : World) :
  userEmail <> "" ->
  (forall u, In u (collection w) -> active u = true -> email u <> userEmail) ->
  exists message,
    fst (UserModelService.updatePassword userEmail newPassword toJSON w)
      = Rejected (TypeError message)
    /\ collection (snd (UserModelService.updatePassword userEmail newPassword toJSON w))
       = collection w
    /\ trace (snd (UserModelService.updatePassword userEmail newPassword toJSON w))
       = trace w.
Proof.
  intros NE None_has. rewrite updatePassword_evaluates.
  destruct (List.find _ (collection w)) as [u0 |] eqn:F.
  - exfalso. apply find_some in F. destruct F as [I S].
    unfold selects, agrees in S. cbn [ILogin.username ILogin.email] in S.
    apply String.eqb_neq in NE. rewrite NE in S.
    rewrite andb_true_r in S. apply andb_prop in S. destruct S as [A E].
    apply String.eqb_eq in E. exact (None_has u0 I A E).
  - eexists. repeat split.
Qed.

(** When the call resolves for a non-empty email, the account it wrote is an
    active one with that email, its password is the digest of the new
    password and its [updated_at] is the time of the call. *)
Lemma updatePassword_by_email (userEmail newPassword : string) (toJSON : bool)
    (w : World) (r : Reply) :
  userEmail <> "" ->
  fst (UserModelService.updatePassword userEmail newPassword toJSON w) = Resolved r ->
  exists u0,
    In u0 (collection w) /\ active u0 = true /\ email u0 = userEmail
    /\ let u := set_updated_at (clock w) (set_password (next_digest w newPassword) u0) in
       r = shown toJSON (Some u)
       /\ lookup (_id u0)
            (collection (snd (UserModelService.updatePassword userEmail newPassword toJSON w)))
          = option_map (fun _ => u) (lookup (_id u0) (collection w))
       /\ password u = next_digest w newPassword
       /\ updated_at u = clock w.
Proof.
  intros NE. rewrite updatePassword_evaluates.
  destruct (List.find _ (collection w)) as [u0 |] eqn:F; [| discriminate].
  cbn zeta. cbn [fst snd moved collection]. intros E. injection E as <-.
  apply find_some in F. destruct F as [I S].
  unfold selects, agrees in S. cbn [ILogin.username ILogin.email] in S.
  apply String.eqb_neq in NE. rewrite NE in S.
  rewrite andb_true_r in S. apply andb_prop in S. destruct S as [A E].
  apply String.eqb_eq in E.
  exists u0. repeat split; auto.
  rewrite lookup_replace. destruct (lookup (_id u0) (collection w)) as [d |] eqn:L.
  - cbn [option_map]. apply lookup_has_id in L. destruct L as [_ L].
    unfold has_id. cbn [_id set_updated_at set_password]. rewrite L, Nat.eqb_refl.
    reflexivity.
  - reflexivity.
Qed.

(** With the empty string for an email, the filter of the lookup is the ban
    exclusion alone: the call overwrites the password of the first active
    account of the collection. *)
Lemma updatePassword_falsy_email (newPassword : string) (toJSON : bool) (w : World) :
  UserModelService.updatePassword "" newPassword toJSON w =
    match List.find active (collection w) with
    | Some u0 =>
        let u := set_updated_at (clock w) (set_password (next_digest w newPassword) u0) in
        (Resolved (shown toJSON (Some u)),
         moved w (replace u (collection w)) (next_id w) (S (draws w))
               (trace w ++ [Saved u; Emitted "users/password_updated" (Document u)]))
    | None =>
        (Rejected (TypeError "Cannot set properties of null"),
         moved w (collection w) (next_id w) (S (draws w)) (trace w))
    end.
Proof.
  rewrite updatePassword_evaluates.
  rewrite (find_pointwise (selects (ILogin.mk (Some "") None None)) active).
  - reflexivity.
  - intros u. unfold selects, agrees. cbn. rewrite !andb_true_r. reflexivity.
Qed.

End PasswordUpdate.

(** ** Deletion *)

(** [delete] never resolves, and leaves the world as it found it. *)
Lemma delete_never_resolves (user : ISignup.t) (toJSON : bool) (w : World) :
  (forall r, fst (UserModelService.delete user toJSON w) <> Resolved r)
  /\ snd (UserModelService.delete user toJSON w) = w.
Proof.
  rewrite delete_evaluates. split; [intros r; discriminate | reflexivity].
Qed.

(** ** The model at work *)

Lemma append_length (a b : string) :
  String.length (String.append a b) = String.length a + String.length b.
Proof.
  induction a as [| ch a IH]; cbn; [reflexivity | rewrite IH; reflexivity].
Qed.

Lemma toy_digest_differs (salt : string) (cost : nat) (data : string) :
  @bcrypt_digest toy_bcrypt salt cost data <> data.
Proof.
  change (String.append "$2b$10$" (String.append salt data) <> data).
  intros E. apply (f_equal String.length) in E.
  rewrite !append_length in E. cbn [String.length] in E. lia.
Qed.

(** C4, at the empty email. No account of [small_world] has the empty
    string for an email, and yet [updatePassword] with that email resolves:
    it has given [alice] the new password. *)
Theorem updatePassword_empty_email_overwrites :
  existsb (fun u => email u =? "") (collection small_world) = false
  /\ fst (@UserModelService.updatePassword toy_bcrypt "" "newpw789" true small_world)
     = Resolved (Json alice_rehashed)
  /\ collection
       (snd (@UserModelService.updatePassword toy_bcrypt "" "newpw789" true small_world))
     = [alice_rehashed; mallory]
  /\ password alice_rehashed <> password alice.
Proof.
  rewrite updatePassword_falsy_email.
  repeat split; try reflexivity. discriminate.
Qed.

(** C5, at a stored account. [alice] resolves by her credentials, and yet
    [delete] with those credentials is rejected: the world is as it was and
    [findById] still resolves with her. *)
Theorem delete_of_stored_account_rejected :
  fst (UserModelService.find (as_login first_signup) true small_world)
    = Resolved (Json alice)
  /\ UserModelService.delete first_signup true small_world
     = (Rejected (TypeError "userDocument.deleteOne is not a function"), small_world)
  /\ fst (UserModelService.findById 0 true
            (snd (UserModelService.delete first_signup true small_world)))
     = Resolved (Json alice).
Proof.
  rewrite delete_evaluates, find_resolves, findById_resolves.
  repeat split.
Qed.

(** C3, as stated, fails: no account of [small_world] has the email asked
    for, and [find] is not rejected. *)
Lemma find_no_match_not_rejected :
  filter (selects by_unknown_email) (collection small_world) = []
  /\ fst (UserModelService.find by_unknown_email true small_world) = Resolved Undefined
  /\ ~ (exists error,
          fst (UserModelService.find by_unknown_email true small_world) = Rejected error).
Proof.
  rewrite find_resolves. repeat split. intros [error E]. discriminate.
Qed.

(** The first registration of the spec's scenarios, in the empty store. *)
Lemma create_stores_salted_hash_witness :
  @valid_signup toy_bcrypt spec_schema first_signup empty_world = true
  /\ exists u,
       fst (@UserModelService.create toy_bcrypt spec_schema first_signup true empty_world)
         = Resolved (shown true (Some u))
       /\ In u (collection
            (snd (@UserModelService.create toy_bcrypt spec_schema first_signup true
                    empty_world)))
       /\ In (Saved u) (trace
            (snd (@UserModelService.create toy_bcrypt spec_schema first_signup true
                    empty_world)))
       /\ password u
          = @bcrypt_digest toy_bcrypt (entropy empty_world (draws empty_world)) 10
              (ISignup.password first_signup)
       /\ password u <> ISignup.password first_signup
       /\ role u = "user"
       /\ confirmed u = false
       /\ twoFactorAuth u = None.
Proof.
  split; [reflexivity |].
  apply (@create_stores_salted_hash toy_bcrypt spec_schema toy_digest_differs
           first_signup true empty_world).
  reflexivity.
Defined.

(** [mallory] is banned in [small_world]. *)
Lemma banned_hidden_from_find_only_witness :
  well_formed small_world
  /\ (forall user toJSON,
        account_of (fst (UserModelService.find user toJSON small_world)) <> Some mallory)
  /\ UserModelService.findById 1 true small_world = (Resolved (Json mallory), small_world)
  /\ UserModelService.findById 1 false small_world
     = (Resolved (Document mallory), small_world).
Proof.
  assert (well_formed small_world) as W by store_checked.
  split; [exact W |].
  apply (banned_hidden_from_find_only small_world mallory W).
  - cbn. auto.
  - reflexivity.
Defined.

Lemma find_one_or_nothing_witness :
  filter (selects by_alice_email) (collection small_world) = [alice]
  /\ UserModelService.find by_alice_email true small_world
     = (Resolved (Json alice), small_world)
  /\ filter (selects by_unknown_email) (collection small_world) = []
  /\ UserModelService.find by_unknown_email false small_world
     = (Resolved Null, small_world).
Proof.
  split; [reflexivity |]. split.
  - apply (proj1 (find_one_or_nothing by_alice_email true small_world) alice).
    reflexivity.
  - split; [reflexivity |].
    apply (proj2 (find_one_or_nothing by_unknown_email false small_world)).
    reflexivity.
Defined.

Lemma find_without_credentials_witness :
  truthy (ILogin.email by_nothing) = false
  /\ truthy (ILogin.username by_nothing) = false
  /\ UserModelService.find by_nothing true small_world
     = (Resolved (Json alice), small_world).
Proof.
  split; [reflexivity |]. split; [reflexivity |].
  apply (find_without_credentials by_nothing true small_world); reflexivity.
Defined.

Lemma updateTwoFactorAuth_replaces_witness :
  lookup 0 (collection small_world) = Some alice
  /\ exists u,
       fst (UserModelService.updateTwoFactorAuth 0 fresh_config small_world)
         = Resolved (Json u)
       /\ lookup 0
            (collection (snd (UserModelService.updateTwoFactorAuth 0 fresh_config
                                small_world)))
          = Some u
       /\ twoFactorAuth u = Some fresh_config
       /\ option_map TwoFactor.backupCodes (twoFactorAuth u)
          = Some (TwoFactor.backupCodes fresh_config)
       /\ u = set_twoFactorAuth fresh_config alice.
Proof.
  split; [reflexivity |].
  apply (updateTwoFactorAuth_replaces 0 fresh_config small_world alice).
  reflexivity.
Defined.

(** [alice] is confirmed in [small_world]: confirming her again changes
    nothing, and a password update leaves her confirmed. *)
Lemma confirmed_never_reset_witness :
  well_formed small_world
  /\ (fst (UserModelService.emailConfirmation 0 small_world) = Resolved (Json alice)
      /\ collection (snd (UserModelService.emailConfirmation 0 small_world))
         = collection small_world
      /\ fst (UserModelService.emailConfirmation 0
                (snd (UserModelService.emailConfirmation 0 small_world)))
         = Resolved (Json alice))
  /\ confirmed alice_rehashed = true.
Proof.
  assert (well_formed small_world) as W by store_checked.
  split; [exact W |]. split.
  - apply (proj1 (@confirmed_never_reset toy_bcrypt spec_schema small_world W) 0 alice);
      reflexivity.
  - apply (proj2 (@confirmed_never_reset toy_bcrypt spec_schema small_world W)
             (mutating (do_updatePassword "a@x.com" "newpw789" true)) 0 alice
             alice_rehashed);
      reflexivity.
Defined.

(** Replacing the two-factor config of [alice]: one write, then one event
    named users/2fa that carries her as written. *)
Lemma one_event_after_each_write_witness :
  exists u,
    trace (snd (@run toy_bcrypt spec_schema (do_updateTwoFactorAuth 0 fresh_config)
                  small_world))
      = trace small_world ++ [Saved u; Emitted "users/2fa" (Document u)]
    /\ events (trace (snd (@run toy_bcrypt spec_schema
                              (do_updateTwoFactorAuth 0 fresh_config) small_world)))
       = events (trace small_world) ++ [("users/2fa", Document u)]
    /\ account_of (fst (@run toy_bcrypt spec_schema
                          (do_updateTwoFactorAuth 0 fresh_config) small_world))
       = Some u
    /\ (false = false ->
        In u (collection (snd (@run toy_bcrypt spec_schema
                                 (do_updateTwoFactorAuth 0 fresh_config) small_world)))).
Proof.
  exact (@one_event_after_each_write toy_bcrypt spec_schema
           (do_updateTwoFactorAuth 0 fresh_config) small_world).
Defined.

(** ** The scenarios of the specification *)

(** A second registration with an email already taken is rejected. *)
Example register_same_email_twice :
  fst (@UserModelService.create toy_bcrypt spec_schema
         (ISignup.mk "a@x.com" "b" "pw123456") true small_world)
  = Rejected (ValidationError "User validation failed").
Proof. reflexivity. Qed.

(** A password update by email resolves and leaves exactly a write and an
    event in the trace. *)
Example update_password_of_alice :
  fst (@UserModelService.updatePassword toy_bcrypt "a@x.com" "newpw789" true small_world)
    = Resolved (Json alice_rehashed)
  /\ trace (snd (@UserModelService.updatePassword toy_bcrypt "a@x.com" "newpw789" true
                   small_world))
     = [Saved alice_rehashed; Emitted "users/password_updated" (Document alice_rehashed)].
Proof. split; reflexivity. Qed.

(** A lookup by the credentials of a banned account resolves with
    undefined, while the account is still in the collection. *)
Example banned_account_by_email :
  UserModelService.find (ILogin.mk (Some "m@x.com") None None) true small_world
    = (Resolved Undefined, small_world)
  /\ In mallory (collection small_world).
Proof. split; [reflexivity | cbn; auto]. Qed.

(** The empty store is well formed, so every store reached from it by calls
    of the module is. *)
Example empty_world_well_formed : well_formed empty_world.
Proof. store_checked. Qed.

(** * Further properties of the methods *)

(** ** More on the collection *)

Lemma lookup_fresh (n : ObjectId) (c : list User) :
  Forall (fun id => id < n) (map _id c) -> lookup n c = None.
Proof.
  unfold lookup. induction c as [| d c IH]; cbn; intros B; [reflexivity |].
  inversion B as [| i l Lt B']; subst.
  unfold has_id at 1. destruct (Nat.eqb_spec (_id d) n); [lia | auto].
Qed.

Lemma lookup_app_missing (id : ObjectId) (c c' : list User) :
  lookup id c = None -> lookup id (c ++ c') = lookup id c'.
Proof.
  unfold lookup. induction c as [| d c IH]; cbn; [reflexivity |].
  destruct (has_id id d); [discriminate | auto].
Qed.

Lemma lookup_replace_other (id : ObjectId) (u : User) (c : list User) :
  _id u <> id -> lookup id (replace u c) = lookup id c.
Proof.
  intros D. rewrite lookup_replace.
  destruct (lookup id c) as [d |] eqn:L; [| reflexivity]. cbn [option_map].
  apply lookup_has_id in L. destruct L as [_ L].
  unfold has_id. destruct (Nat.eqb_spec (_id d) (_id u)); [congruence | reflexivity].
Qed.

Lemma lookup_replace_same (u u0 : User) (c : list User) :
  _id u = _id u0 -> lookup (_id u0) c = Some u0 ->
  lookup (_id u0) (replace u c) = Some u.
Proof.
  intros E L. rewrite lookup_replace, L. cbn [option_map].
  unfold has_id. rewrite E, Nat.eqb_refl. reflexivity.
Qed.

Lemma replace_twice (a b : User) (c : list User) :
  _id a = _id b -> replace a (replace b c) = replace a c.
Proof.
  intros E. unfold replace. rewrite map_map. apply map_ext. intros d.
  rewrite E. destruct (has_id (_id b) d) eqn:S; [| rewrite S; reflexivity].
  unfold has_id. rewrite Nat.eqb_refl. reflexivity.
Qed.

Lemma stored_is_looked_up (id : ObjectId) (c : list User) :
  is_stored id c = match lookup id c with Some _ => true | None => false end.
Proof.
  unfold is_stored, lookup. induction c as [| d c IH]; cbn; [reflexivity |].
  destruct (has_id id d); auto.
Qed.

Lemma find_after_misses {A} (f : A -> bool) (l l' : list A) :
  (forall x, In x l -> f x = false) -> List.find f (l ++ l') = List.find f l'.
Proof.
  induction l as [| x l IH]; cbn; intros M; [reflexivity |].
  rewrite (M x (or_introl eq_refl)). apply IH. intros y I. apply M. right. exact I.
Qed.


Lemma find_through_map {A} (f : A -> bool) (g : A -> A) (l : list A) :
  (forall x, In x l -> f (g x) = f x) ->
  List.find f (map g l) = option_map g (List.find f l).
Proof.
  induction l as [| x l IH]; cbn; intros P; [reflexivity |].
  rewrite (P x (or_introl eq_refl)). destruct (f x); [reflexivity |].
  apply IH. intros y I. apply P. right. exact I.
Qed.

Lemma events_after_pair (t : list Effect) (u : User) (n : string) (p : Reply) :
  events (t ++ [Saved u; Emitted n p]) = events t ++ [(n, p)].
Proof. unfold events. rewrite flat_map_app. reflexivity. Qed.

Lemma forwarded (m : Async Reply) (w : World) :
  new_Promise (userDocument <- m ;; resolve userDocument) w = m w.
Proof.
  rewrite new_Promise_same. unfold await, resolve.
  destruct (m w) as [[r | error] w']; reflexivity.
Qed.

Lemma lookup_created (w : World) (u : User) :
  well_formed w ->
  _id u = next_id w ->
  lookup (_id u) (collection w ++ [u]) = Some u.
Proof.
  intros [_ B] I. rewrite lookup_app_missing.
  - unfold lookup. cbn. unfold has_id. rewrite Nat.eqb_refl. reflexivity.
  - rewrite I. apply lookup_fresh. exact B.
Qed.

(** ** What every call keeps *)

Section Kept.
Context `{Bcrypt} `{Schema}.

(** Whatever the calls and whatever they settle with, a well-formed store
    stays well formed: no two documents ever share an [_id]. *)
Theorem session_keeps_store_well_formed (cs : list Call) (w : World) :
  well_formed w -> well_formed (session cs w).
Proof.
  unfold session. revert w. induction cs as [| c cs IH]; cbn; intros w W.
  - exact W.
  - apply IH. apply well_formed_after. exact W.
Qed.

(** No call removes an account or changes its [_id], email, username, role,
    ban flag or [created_at]: a stored account is still stored after the
    call, with the same identity. *)
Theorem accounts_keep_identity (c : Call) (w : World) (id : ObjectId) (u : User) :
  well_formed w ->
  lookup id (collection w) = Some u ->
  exists u',
    lookup id (collection (after c w)) = Some u' /\ same_identity u' u.
Proof.
  intros [N B] L.
  assert (same_identity u u) as Refl by (repeat split).
  destruct c as [m | q]; [| rewrite reading_changes_nothing; eauto].
  assert (overwritten : forall u0 u1 n t,
            In u0 (collection w) -> same_identity u1 u0 ->
            exists u',
              lookup id (collection
                 (moved w (replace u1 (collection w)) (next_id w) n t)) = Some u'
              /\ same_identity u' u).
  { intros u0 u1 n t I0 Same. cbn [moved collection].
    rewrite lookup_replace, L. cbn [option_map].
    destruct (has_id (_id u1) u) eqn:S; [| eauto].
    exists u1. split; [reflexivity |].
    assert (u = u0) as ->; [| exact Same].
    apply (same_id_same_document (collection w)); auto.
    - apply (lookup_has_id _ _ _ L).
    - unfold has_id in S. apply Nat.eqb_eq in S. destruct Same as [Id _]. congruence. }
  destruct m as [user toJSON | userEmail newPassword toJSON | userId
                 | userId twoFactorAuth0 | user toJSON]; cbn [after run].
  - destruct (valid_signup user w) eqn:V.
    + destruct (create_resolves user toJSON w V) as [u1 [E _]].
      rewrite E. cbn [snd moved collection].
      rewrite (lookup_app_found _ _ [u1] _ L). eauto.
    + rewrite (create_rejects user toJSON w V). cbn [snd moved collection]. eauto.
  - rewrite updatePassword_evaluates.
    destruct (List.find _ (collection w)) as [u0 |] eqn:F; cbn [snd].
    + apply (overwritten u0); [apply (find_some _ _ F) | repeat split].
    + cbn [moved collection]. eauto.
  - rewrite emailConfirmation_evaluates.
    destruct (lookup userId (collection w)) as [u0 |] eqn:F; cbn [snd].
    + apply (overwritten u0); [apply (lookup_has_id _ _ _ F) | repeat split].
    + eauto.
  - rewrite updateTwoFactorAuth_evaluates.
    destruct (lookup userId (collection w)) as [u0 |] eqn:F; cbn [snd].
    + apply (overwritten u0); [apply (lookup_has_id _ _ _ F) | repeat split].
    + eauto.
  - rewrite delete_evaluates. cbn [snd]. eauto.
Qed.

(** A mutating call changes at most the account it resolves with: under
    every other [_id] the collection holds after the call what it held
    before, and a call that is rejected changes no account at all. *)
Theorem mutation_changes_one_account (m : Mutation) (w : World) (id : ObjectId) :
  (forall u, account_of (fst (run m w)) = Some u -> _id u <> id) ->
  lookup id (collection (snd (run m w))) = lookup id (collection w).
Proof.
  destruct m as [user toJSON | userEmail newPassword toJSON | userId
                 | userId twoFactorAuth0 | user toJSON]; cbn [run].
  - destruct (valid_signup user w) eqn:V.
    + destruct (create_resolves user toJSON w V) as [u [E _]].
      rewrite E. cbn [fst snd moved collection]. intros D.
      assert (_id u <> id) as Du by (apply D; destruct toJSON; reflexivity).
      destruct (lookup id (collection w)) as [d |] eqn:L.
      * apply lookup_app_found. exact L.
      * rewrite (lookup_app_missing _ _ _ L). unfold lookup. cbn.
        unfold has_id. destruct (Nat.eqb_spec (_id u) id); [contradiction | reflexivity].
    + rewrite (create_rejects user toJSON w V). reflexivity.
  - rewrite updatePassword_evaluates.
    destruct (List.find _ (collection w)) as [u0 |] eqn:F;
      cbn [fst snd moved collection]; [| reflexivity].
    intros D. apply lookup_replace_other. apply D. destruct toJSON; reflexivity.
  - rewrite emailConfirmation_evaluates.
    destruct (lookup userId (collection w)) as [u0 |] eqn:F;
      cbn [fst snd moved collection]; [| reflexivity].
    intros D. apply lookup_replace_other. apply D. reflexivity.
  - rewrite updateTwoFactorAuth_evaluates.
    destruct (lookup userId (collection w)) as [u0 |] eqn:F;
      cbn [fst snd moved collection]; [| reflexivity].
    intros D. apply lookup_replace_other. apply D. reflexivity.
  - rewrite delete_evaluates. reflexivity.
Qed.

(** [create] and [updatePassword] draw one salt each, whether they resolve
    or are rejected, since [bcrypt.hash] is their first step; no other call
    draws one, and no call moves the clock or the supply of salts. *)
Theorem one_salt_per_hash (c : Call) (w : World) :
  draws (after c w) = (if hashes c then S (draws w) else draws w)
  /\ clock (after c w) = clock w
  /\ entropy (after c w) = entropy w.
Proof.
  destruct c as [m | q]; [| rewrite reading_changes_nothing; destruct q; auto].
  destruct m as [user toJSON | userEmail newPassword toJSON | userId
                 | userId twoFactorAuth0 | user toJSON]; cbn [after run hashes].
  - destruct (valid_signup user w) eqn:V.
    + destruct (create_resolves user toJSON w V) as [u [E _]]. rewrite E. auto.
    + rewrite (create_rejects user toJSON w V). auto.
  - rewrite updatePassword_evaluates.
    destruct (List.find _ (collection w)); auto.
  - rewrite emailConfirmation_evaluates.
    destruct (lookup userId (collection w)); auto.
  - rewrite updateTwoFactorAuth_evaluates.
    destruct (lookup userId (collection w)); auto.
  - rewrite delete_evaluates. auto.
Qed.

Lemma trace_after (c : Call) (w : World) :
  trace (after c w) = trace w
  \/ exists u event,
       trace (after c w) = trace w ++ [Saved u; Emitted event (Document u)].
Proof.
  destruct c as [m | q]; [| rewrite reading_changes_nothing; auto].
  destruct m as [user toJSON | userEmail newPassword toJSON | userId
                 | userId twoFactorAuth0 | user toJSON]; cbn [after run].
  - destruct (valid_signup user w) eqn:V.
    + destruct (create_resolves user toJSON w V) as [u [E _]]. rewrite E. right. exists u, "users/create". reflexivity.
    + rewrite (create_rejects user toJSON w V). left. reflexivity.
  - rewrite updatePassword_evaluates.
    destruct (List.find _ (collection w));
      [right; eexists; eexists; reflexivity | left; reflexivity].
  - rewrite emailConfirmation_evaluates.
    destruct (lookup userId (collection w));
      [right; eexists; eexists; reflexivity | left; reflexivity].
  - rewrite updateTwoFactorAuth_evaluates.
    destruct (lookup userId (collection w));
      [right; eexists; eexists; reflexivity | left; reflexivity].
  - rewrite delete_evaluates. left. reflexivity.
Qed.

(** Over any sequence of calls the trace stays a sequence of pairs, a write
    and then the event for the document written: no event without its
    write before it, no write without its event after it, and never a
    removal. *)
Theorem session_trace_is_paired (cs : list Call) (w : World) :
  paired (trace w) ->
  paired (trace (session cs w))
  /\ forall u, ~ In (Removed u) (trace (session cs w)).
Proof.
  intros P.
  assert (paired (trace (session cs w))) as Q.
  { unfold session. revert w P. induction cs as [| c cs IH]; cbn; intros w P.
    - exact P.
    - apply IH. destruct (trace_after c w) as [-> | [u [event ->]]].
      + exact P.
      + constructor. exact P. }
  split; [exact Q |].
  induction Q as [| t u0 event Q IH]; intros u I.
  - destruct I.
  - apply in_app_or in I. destruct I as [I | [I | [I | []]]].
    + exact (IH u I).
    + discriminate.
    + discriminate.
Qed.

End Kept.

(** ** Registration, then lookups *)

Section RoundTrips.
Context `{Bcrypt} `{Schema}.

(** The account [create] resolves with is the one [findById] resolves with
    for its [_id] right after, in either shape. *)
Theorem create_then_findById (user : ISignup.t) (toJSON : bool) (w : World) :
  valid_signup user w = true ->
  well_formed w ->
  exists u,
    fst (UserModelService.create user toJSON w) = Resolved (shown toJSON (Some u))
    /\ forall toJSON',
         fst (UserModelService.findById (_id u) toJSON'
                (snd (UserModelService.create user toJSON w)))
         = Resolved (shown toJSON' (Some u)).
Proof.
  intros V W. destruct (create_resolves user toJSON w V) as [u [E [I _]]].
  exists u. rewrite E. split; [reflexivity |]. intros toJSON'.
  rewrite findById_resolves. cbn [fst snd moved collection].
  rewrite (lookup_created w u W I). reflexivity.
Qed.

(** When no stored account answers to the credentials of a signup, the
    account [create] makes of it is the one [find] resolves with for those
    credentials right after. *)
Theorem create_then_find (user : ISignup.t) (toJSON : bool) (w : World) :
  valid_signup user w = true ->
  (forall d, In d (collection w) -> selects (as_login user) d = false) ->
  exists u,
    fst (UserModelService.create user toJSON w) = Resolved (shown toJSON (Some u))
    /\ forall toJSON',
         fst (UserModelService.find (as_login user) toJSON'
                (snd (UserModelService.create user toJSON w)))
         = Resolved (shown toJSON' (Some u)).
Proof.
  intros V Free.
  destruct (create_resolves user toJSON w V) as [u [E [_ [Em [Un [_ [_ [_ [Bn _]]]]]]]]].
  exists u. rewrite E. split; [reflexivity |]. intros toJSON'.
  rewrite find_resolves. cbn [fst snd moved collection].
  rewrite (find_after_misses _ _ _ Free). cbn [List.find].
  assert (selects (as_login user) u = true) as S.
  { unfold selects, active, agrees, as_login. cbn [ILogin.username ILogin.email].
    rewrite Bn, Em, Un, !String.eqb_refl.
    destruct (ISignup.username user =? ""), (ISignup.email user =? ""); reflexivity. }
  rewrite S. reflexivity.
Qed.

(** Through the public service: an account registered with [create], then
    confirmed with [emailConfirmation], is what [findById] shows, confirmed;
    the two calls that write have left one event each, in that order. *)
Theorem register_confirm_lookup (user : ISignup.t) (w : World) :
  valid_signup user w = true ->
  well_formed w ->
  exists u w1 w2,
    UsersService.create user w = (Resolved (Json u), w1)
    /\ confirmed u = false
    /\ UsersService.emailConfirmation (_id u) w1
       = (Resolved (Json (set_confirmed true u)), w2)
    /\ UsersService.findById (_id u) w2
       = (Resolved (Json (set_confirmed true u)), w2)
    /\ events (trace w2)
       = events (trace w)
         ++ [("users/create", Document u);
             ("users/confirmed", Document (set_confirmed true u))].
Proof.
  intros V W.
  destruct (create_resolves user true w V) as [u [E [I [_ [_ [_ [_ [C _]]]]]]]].
  pose proof (lookup_created w u W I) as L.
  unfold UsersService.create, UsersService.emailConfirmation, UsersService.findById.
  exists u. eexists. eexists. rewrite forwarded, E. split; [reflexivity |].
  split; [exact C |].
  rewrite forwarded, emailConfirmation_evaluates. cbn [moved collection].
  rewrite L. cbn zeta. split; [reflexivity |].
  rewrite forwarded, findById_resolves. cbn [moved collection trace next_id].
  rewrite (lookup_replace_same (set_confirmed true u) u _ eq_refl L).
  split; [reflexivity |].
  rewrite !events_after_pair, <- app_assoc. reflexivity.
Qed.

End RoundTrips.

(** ** Lookups, once more *)

(** [find] never reads the password of the credentials: two logins with the
    same email and username settle alike, whatever passwords they carry. *)
Theorem find_ignores_password (e n p p' : option string) (toJSON : bool) (w : World) :
  UserModelService.find (ILogin.mk e n p) toJSON w
  = UserModelService.find (ILogin.mk e n p') toJSON w.
Proof.
  rewrite !find_resolves. reflexivity.
Qed.


(** [findAll] resolves with one document for every account of the
    collection, the banned ones too, and every document that [find],
    [findOne] or [findById] can resolve with is among them. *)
Theorem findAll_covers_lookups (w : World) :
  exists all,
    UserModelService.findAll w = (Resolved all, w)
    /\ length all = length (collection w)
    /\ (forall u, In u (collection w) <-> In (Document u) all)
    /\ (forall user u,
          fst (UserModelService.find user false w) = Resolved (Document u) ->
          In (Document u) all)
    /\ (forall filters u,
          fst (UserModelService.findOne filters w) = Resolved (Document u) ->
          In (Document u) all)
    /\ (forall id u,
          fst (UserModelService.findById id false w) = Resolved (Document u) ->
          In (Document u) all).
Proof.
  exists (map Document (collection w)).
  assert (forall u, In u (collection w) <-> In (Document u) (map Document (collection w)))
    as Mem.
  { intros u. split; [apply in_map |].
    intros I. apply in_map_iff in I. destruct I as [d [E I]]. congruence. }
  split; [reflexivity |]. split; [apply length_map |]. split; [exact Mem |].
  split; [| split].
  - intros user u. rewrite find_resolves. cbn [fst].
    destruct (List.find (selects user) (collection w)) as [d |] eqn:F; cbn;
      [| discriminate].
    intros E. injection E as <-. apply Mem, (find_some _ _ F).
  - intros filters u. unfold UserModelService.findOne. rewrite new_Promise_same.
    unfold await, userModel.findOne, resolve. cbn [fst].
    destruct (List.find (matches filters) (collection w)) as [d |] eqn:F; cbn;
      [| discriminate].
    intros E. injection E as <-. apply Mem, (find_some _ _ F).
  - intros id u. rewrite findById_resolves. cbn [fst].
    destruct (lookup id (collection w)) as [d |] eqn:F; cbn; [| discriminate].
    intros E. injection E as <-. apply Mem, (lookup_has_id _ _ _ F).
Qed.


(** ** Updates by [_id] *)

(** For an [_id] that is not in the collection, [emailConfirmation] and
    [updateTwoFactorAuth] are rejected with the error "user doesn't exist."
    and leave the world as it was: nothing written, nothing emitted. *)
Theorem unknown_id_is_rejected (userId : ObjectId) (twoFactorAuth0 : TwoFactor.t)
    (w : World) :
  is_stored userId (collection w) = false ->
  UserModelService.emailConfirmation userId w
    = (Rejected (PlainError "user doesn't exist."), w)
  /\ UserModelService.updateTwoFactorAuth userId twoFactorAuth0 w
     = (Rejected (PlainError "user doesn't exist."), w).
Proof.
  rewrite stored_is_looked_up, emailConfirmation_evaluates, updateTwoFactorAuth_evaluates.
  destruct (lookup userId (collection w)); [discriminate | auto].
Qed.

(** For every stored account, banned or not, confirmed or not,
    [emailConfirmation] resolves with the account with [confirmed] set and
    nothing else changed; that is what the collection then holds for its
    [_id], and every other account is as it was. *)
Theorem emailConfirmation_confirms (userId : ObjectId) (w : World) (u0 : User) :
  lookup userId (collection w) = Some u0 ->
  exists u,
    fst (UserModelService.emailConfirmation userId w) = Resolved (Json u)
    /\ u = set_confirmed true u0
    /\ confirmed u = true
    /\ lookup userId (collection (snd (UserModelService.emailConfirmation userId w)))
       = Some u
    /\ forall id,
         id <> userId ->
         lookup id (collection (snd (UserModelService.emailConfirmation userId w)))
         = lookup id (collection w).
Proof.
  intros L. rewrite emailConfirmation_evaluates, L. cbn zeta.
  exists (set_confirmed true u0). cbn [fst snd moved collection].
  pose proof (lookup_has_id _ _ _ L) as [_ Id].
  repeat split.
  - rewrite <- Id at 1. apply lookup_replace_same; [reflexivity | congruence].
  - intros id D. apply lookup_replace_other. cbn [_id set_confirmed]. congruence.
Qed.

(** Two replacements of the two-factor config, one after the other: the
    account is left as the second alone would have left it. *)
Theorem updateTwoFactorAuth_last_wins (userId : ObjectId) (first second : TwoFactor.t)
    (w : World) (u0 : User) :
  lookup userId (collection w) = Some u0 ->
  fst (UserModelService.updateTwoFactorAuth userId second
         (snd (UserModelService.updateTwoFactorAuth userId first w)))
    = Resolved (Json (set_twoFactorAuth second u0))
  /\ collection
       (snd (UserModelService.updateTwoFactorAuth userId second
               (snd (UserModelService.updateTwoFactorAuth userId first w))))
     = collection (snd (UserModelService.updateTwoFactorAuth userId second w)).
Proof.
  intros L. pose proof (lookup_has_id _ _ _ L) as [_ Id].
  rewrite (updateTwoFactorAuth_evaluates userId first w), L. cbn zeta. cbn [snd].
  rewrite !updateTwoFactorAuth_evaluates. cbn [moved collection].
  rewrite L.
  assert (lookup userId (replace (set_twoFactorAuth first u0) (collection w))
          = Some (set_twoFactorAuth first u0)) as L1.
  { rewrite <- Id at 1. apply lookup_replace_same; [reflexivity | congruence]. }
  rewrite L1. cbn zeta. cbn [fst snd moved collection].
  split; [reflexivity |].
  apply (replace_twice (set_twoFactorAuth second u0) (set_twoFactorAuth first u0)).
  reflexivity.
Qed.

(** ** Password updates, once more *)

Section Rehash.
Context `{Bcrypt}.

Hypothesis one_way :
  forall salt cost data, bcrypt_digest salt cost data <> data.

(** Whatever the email, when [updatePassword] resolves, the account it
    resolves with is in the collection, its password is the bcrypt digest of
    the new password at cost 10 and not the new password itself, and its
    [updated_at] is the time of the call. *)
Theorem updatePassword_stores_digest (userEmail newPassword : string) (toJSON : bool)
    (w : World) (u : User) :
  account_of (fst (UserModelService.updatePassword userEmail newPassword toJSON w))
    = Some u ->
  In u (collection (snd (UserModelService.updatePassword userEmail newPassword toJSON w)))
  /\ password u = bcrypt_digest (entropy w (draws w)) 10 newPassword
  /\ password u <> newPassword
  /\ updated_at u = clock w.
Proof.
  rewrite updatePassword_evaluates.
  destruct (List.find _ (collection w)) as [u0 |] eqn:F; [| discriminate].
  cbn zeta. cbn [fst snd moved collection]. intros E.
  assert (u = set_updated_at (clock w) (set_password (next_digest w newPassword) u0))
    as ->.
  { destruct toJSON; cbn in E; congruence. }
  split; [| split; [reflexivity | split; [apply one_way | reflexivity]]].
  apply in_replace. apply (stored_when_in _ u0), (find_some _ _ F).
Qed.

End Rehash.

Section Rehashed.
Context `{Bcrypt}.

(** The same password set twice for the same email is hashed twice: the
    second call resolves with the same account, and the digests the two
    calls store are taken under two successive salts. *)
Theorem updatePassword_twice_draws_two_salts (userEmail newPassword : string)
    (toJSON : bool) (w : World) (u1 : User) :
  well_formed w ->
  account_of (fst (UserModelService.updatePassword userEmail newPassword toJSON w))
    = Some u1 ->
  exists u2,
    account_of
      (fst (UserModelService.updatePassword userEmail newPassword toJSON
              (snd (UserModelService.updatePassword userEmail newPassword toJSON w))))
      = Some u2
    /\ _id u2 = _id u1
    /\ password u1 = bcrypt_digest (entropy w (draws w)) 10 newPassword
    /\ password u2 = bcrypt_digest (entropy w (S (draws w))) 10 newPassword.
Proof.
  intros [N _].
  rewrite (updatePassword_evaluates userEmail newPassword toJSON w).
  destruct (List.find _ (collection w)) as [u0 |] eqn:F; [| discriminate].
  cbn zeta. cbn [fst snd]. intros E.
  assert (u1 = set_updated_at (clock w) (set_password (next_digest w newPassword) u0))
    as ->.
  { destruct toJSON; cbn in E; congruence. }
  rewrite updatePassword_evaluates. cbn [moved collection clock].
  unfold replace at 1. rewrite find_through_map.
  - rewrite F. cbn [option_map].
    assert (has_id (_id u0) u0 = true) as S by (unfold has_id; apply Nat.eqb_refl).
    cbn [_id set_updated_at set_password]. rewrite S. cbn zeta.
    eexists. split; [destruct toJSON; reflexivity |].
    repeat split.
  - intros d I. cbn [_id set_updated_at set_password].
    destruct (has_id (_id u0) d) eqn:S; [| reflexivity].
    assert (d = u0) as ->; [| reflexivity].
    apply (same_id_same_document (collection w)); auto.
    + apply (find_some _ _ F).
    + unfold has_id in S. apply Nat.eqb_eq in S. exact S.
Qed.

End Rehashed.

(** ** The [toJSON] flag *)

Section Shapes.
Context `{Bcrypt} `{Schema}.

(** The [toJSON] flag of [create], [updatePassword], [find], [findById] and
    [delete] decides the shape of what the promise resolves with and nothing
    else: the world after the call and the account resolved with are the
    same with the flag on and off. *)
Theorem toJSON_only_shapes_the_result (w : World) :
  (forall user,
     snd (UserModelService.create user true w) = snd (UserModelService.create user false w)
     /\ account_of (fst (UserModelService.create user true w))
        = account_of (fst (UserModelService.create user false w)))
  /\ (forall userEmail newPassword,
        snd (UserModelService.updatePassword userEmail newPassword true w)
        = snd (UserModelService.updatePassword userEmail newPassword false w)
        /\ account_of (fst (UserModelService.updatePassword userEmail newPassword true w))
           = account_of (fst (UserModelService.updatePassword userEmail newPassword false w)))
  /\ (forall user,
        snd (UserModelService.find user true w) = snd (UserModelService.find user false w)
        /\ account_of (fst (UserModelService.find user true w))
           = account_of (fst (UserModelService.find user false w)))
  /\ (forall id,
        snd (UserModelService.findById id true w) = snd (UserModelService.findById id false w)
        /\ account_of (fst (UserModelService.findById id true w))
           = account_of (fst (UserModelService.findById id false w)))
  /\ (forall user,
        UserModelService.delete user true w = UserModelService.delete user false w).
Proof.
  split; [| split; [| split; [| split]]].
  - intros user. unfold UserModelService.create. rewrite !new_Promise_same.
    unfold await, bcrypt_hash, userModel.construct, Doc.save_new.
    cbn [collection next_id clock entropy draws trace].
    destruct (schema_accepts _ _); split; reflexivity.
  - intros userEmail newPassword. rewrite !updatePassword_evaluates.
    destruct (List.find _ (collection w)); split; reflexivity.
  - intros user. rewrite !find_resolves.
    destruct (List.find _ (collection w)); split; reflexivity.
  - intros id. rewrite !findById_resolves.
    destruct (lookup id (collection w)); split; reflexivity.
  - intros user. rewrite !delete_evaluates. reflexivity.
Qed.

End Shapes.

(** ** The further properties at work *)

Lemma session_keeps_store_well_formed_witness :
  well_formed empty_world
  /\ well_formed (@session toy_bcrypt spec_schema sample_calls empty_world).
Proof.
  assert (well_formed empty_world) as W by store_checked.
  split; [exact W |].
  apply (@session_keeps_store_well_formed toy_bcrypt spec_schema sample_calls empty_world W).
Defined.

(** [alice] through a password update. *)
Lemma accounts_keep_identity_witness :
  well_formed small_world
  /\ lookup 0 (collection small_world) = Some alice
  /\ exists u',
       lookup 0 (collection
         (@after toy_bcrypt spec_schema
            (mutating (do_updatePassword "a@x.com" "newpw789" true)) small_world))
       = Some u'
       /\ same_identity u' alice.
Proof.
  assert (well_formed small_world) as W by store_checked.
  split; [exact W |]. split; [reflexivity |].
  apply (@accounts_keep_identity toy_bcrypt spec_schema
           (mutating (do_updatePassword "a@x.com" "newpw789" true)) small_world 0 alice W).
  reflexivity.
Defined.

(** Confirming [alice] leaves [mallory] alone. *)
Lemma mutation_changes_one_account_witness :
  lookup 1 (collection (snd (@run toy_bcrypt spec_schema (do_emailConfirmation 0)
                               small_world)))
  = lookup 1 (collection small_world).
Proof.
  apply (@mutation_changes_one_account toy_bcrypt spec_schema (do_emailConfirmation 0)
           small_world 1).
  intros u E. cbn in E. injection E as <-. cbn. discriminate.
Defined.

Lemma session_trace_is_paired_witness :
  paired (trace empty_world)
  /\ paired (trace (@session toy_bcrypt spec_schema sample_calls empty_world))
  /\ forall u,
       ~ In (Removed u) (trace (@session toy_bcrypt spec_schema sample_calls empty_world)).
Proof.
  assert (paired (trace empty_world)) as P by constructor.
  split; [exact P |].
  apply (@session_trace_is_paired toy_bcrypt spec_schema sample_calls empty_world P).
Defined.

Lemma create_then_findById_witness :
  @valid_signup toy_bcrypt spec_schema first_signup empty_world = true
  /\ well_formed empty_world
  /\ exists u,
       fst (@UserModelService.create toy_bcrypt spec_schema first_signup true empty_world)
         = Resolved (shown true (Some u))
       /\ forall toJSON',
            fst (UserModelService.findById (_id u) toJSON'
                   (snd (@UserModelService.create toy_bcrypt spec_schema first_signup true
                           empty_world)))
            = Resolved (shown toJSON' (Some u)).
Proof.
  assert (well_formed empty_world) as W by store_checked.
  split; [reflexivity |]. split; [exact W |].
  apply (@create_then_findById toy_bcrypt spec_schema first_signup true empty_world);
    [reflexivity | exact W].
Defined.

Lemma create_then_find_witness :
  @valid_signup toy_bcrypt spec_schema first_signup empty_world = true
  /\ exists u,
       fst (@UserModelService.create toy_bcrypt spec_schema first_signup false empty_world)
         = Resolved (shown false (Some u))
       /\ forall toJSON',
            fst (UserModelService.find (as_login first_signup) toJSON'
                   (snd (@UserModelService.create toy_bcrypt spec_schema first_signup false
                           empty_world)))
            = Resolved (shown toJSON' (Some u)).
Proof.
  split; [reflexivity |].
  apply (@create_then_find toy_bcrypt spec_schema first_signup false empty_world);
    [reflexivity | intros d []].
Defined.

Lemma register_confirm_lookup_witness :
  @valid_signup toy_bcrypt spec_schema first_signup empty_world = true
  /\ well_formed empty_world
  /\ exists u w1 w2,
       @UsersService.create toy_bcrypt spec_schema first_signup empty_world
         = (Resolved (Json u), w1)
       /\ confirmed u = false
       /\ UsersService.emailConfirmation (_id u) w1
          = (Resolved (Json (set_confirmed true u)), w2)
       /\ UsersService.findById (_id u) w2
          = (Resolved (Json (set_confirmed true u)), w2)
       /\ events (trace w2)
          = events (trace empty_world)
            ++ [("users/create", Document u);
                ("users/confirmed", Document (set_confirmed true u))].
Proof.
  assert (well_formed empty_world) as W by store_checked.
  split; [reflexivity |]. split; [exact W |].
  apply (@register_confirm_lookup toy_bcrypt spec_schema first_signup empty_world);
    [reflexivity | exact W].
Defined.

Lemma unknown_id_is_rejected_witness :
  is_stored 7 (collection small_world) = false
  /\ UserModelService.emailConfirmation 7 small_world
     = (Rejected (PlainError "user doesn't exist."), small_world)
  /\ UserModelService.updateTwoFactorAuth 7 fresh_config small_world
     = (Rejected (PlainError "user doesn't exist."), small_world).
Proof.
  split; [reflexivity |].
  apply (unknown_id_is_rejected 7 fresh_config small_world). reflexivity.
Defined.

(** [mallory] is banned and not confirmed. *)
Lemma emailConfirmation_confirms_witness :
  lookup 1 (collection small_world) = Some mallory
  /\ exists u,
       fst (UserModelService.emailConfirmation 1 small_world) = Resolved (Json u)
       /\ u = set_confirmed true mallory
       /\ confirmed u = true
       /\ lookup 1 (collection (snd (UserModelService.emailConfirmation 1 small_world)))
          = Some u
       /\ forall id,
            id <> 1 ->
            lookup id (collection (snd (UserModelService.emailConfirmation 1 small_world)))
            = lookup id (collection small_world).
Proof.
  split; [reflexivity |].
  apply (emailConfirmation_confirms 1 small_world mallory). reflexivity.
Defined.

Lemma updateTwoFactorAuth_last_wins_witness :
  lookup 0 (collection small_world) = Some alice
  /\ fst (UserModelService.updateTwoFactorAuth 0 fresh_config
            (snd (UserModelService.updateTwoFactorAuth 0 stale_config small_world)))
     = Resolved (Json (set_twoFactorAuth fresh_config alice))
  /\ collection
       (snd (UserModelService.updateTwoFactorAuth 0 fresh_config
               (snd (UserModelService.updateTwoFactorAuth 0 stale_config small_world))))
     = collection (snd (UserModelService.updateTwoFactorAuth 0 fresh_config small_world)).
Proof.
  split; [reflexivity |].
  apply (updateTwoFactorAuth_last_wins 0 stale_config fresh_config small_world alice).
  reflexivity.
Defined.

Lemma updatePassword_stores_digest_witness :
  account_of
    (fst (@UserModelService.updatePassword toy_bcrypt "a@x.com" "newpw789" true small_world))
    = Some alice_rehashed
  /\ In alice_rehashed
       (collection
          (snd (@UserModelService.updatePassword toy_bcrypt "a@x.com" "newpw789" true
                  small_world)))
  /\ password alice_rehashed
     = @bcrypt_digest toy_bcrypt (entropy small_world (draws small_world)) 10 "newpw789"
  /\ password alice_rehashed <> "newpw789"
  /\ updated_at alice_rehashed = clock small_world.
Proof.
  split; [reflexivity |].
  apply (@updatePassword_stores_digest toy_bcrypt toy_digest_differs
           "a@x.com" "newpw789" true small_world alice_rehashed).
  reflexivity.
Defined.

Lemma updatePassword_twice_draws_two_salts_witness :
  well_formed small_world
  /\ exists u2,
       account_of
         (fst (@UserModelService.updatePassword toy_bcrypt "a@x.com" "newpw789" true
                 (snd (@UserModelService.updatePassword toy_bcrypt "a@x.com" "newpw789"
                         true small_world))))
         = Some u2
       /\ _id u2 = _id alice_rehashed
       /\ password alice_rehashed
          = @bcrypt_digest toy_bcrypt (entropy small_world (draws small_world)) 10
              "newpw789"
       /\ password u2
          = @bcrypt_digest toy_bcrypt (entropy small_world (S (draws small_world))) 10
              "newpw789".
Proof.
  assert (well_formed small_world) as W by store_checked.
  split; [exact W |].
  apply (@updatePassword_twice_draws_two_salts toy_bcrypt "a@x.com" "newpw789" true
           small_world alice_rehashed W).
  reflexivity.
Defined.

(** The email of [mallory], who is banned, and an email nobody has. *)
Lemma updatePassword_unknown_email_witness :
  (exists message,
     fst (@UserModelService.updatePassword toy_bcrypt "m@x.com" "newpw789" true small_world)
       = Rejected (TypeError message)
     /\ collection
          (snd (@UserModelService.updatePassword toy_bcrypt "m@x.com" "newpw789" true
                  small_world))
        = collection small_world
     /\ trace
          (snd (@UserModelService.updatePassword toy_bcrypt "m@x.com" "newpw789" true
                  small_world))
        = trace small_world).
Proof.
  apply (@updatePassword_unknown_email toy_bcrypt "m@x.com" "newpw789" true small_world).
  - discriminate.
  - intros u [<- | [<- | []]] A; [discriminate | discriminate].
Defined.

Lemma updatePassword_by_email_witness :
  exists u0,
    In u0 (collection small_world) /\ active u0 = true /\ email u0 = "a@x.com"
    /\ let u := set_updated_at (clock small_world)
                  (set_password (@next_digest toy_bcrypt small_world "newpw789") u0) in
       Json alice_rehashed = shown true (Some u)
       /\ lookup (_id u0)
            (collection
               (snd (@UserModelService.updatePassword toy_bcrypt "a@x.com" "newpw789" true
                       small_world)))
          = option_map (fun _ => u) (lookup (_id u0) (collection small_world))
       /\ password u = @next_digest toy_bcrypt small_world "newpw789"
       /\ updated_at u = clock small_world.
Proof.
  apply (@updatePassword_by_email toy_bcrypt "a@x.com" "newpw789" true small_world
           (Json alice_rehashed)).
  - discriminate.
  - reflexivity.
Defined.
